(** * fintrack: the balance projection engine of [hooks/useFinance]

    A shallow embedding of the finance hook (ledger state, its mutation
    operations, its storage and [getBalanceAtDate]), of the statistics of the
    charts screen and of what the forms, the transaction list and the
    settings screen do with the hook, together with the part of the
    JavaScript host they rely on: [Date] objects, the ISO date-time string
    format and IEEE-754 double-precision [number]s.

    JavaScript [number]s that carry money are binary64 floats and are
    modelled by Rocq's primitive floats, which are the same format with the
    same rounding.  Calendar quantities (time values, years, months) are
    integers far below 2^53, on which double arithmetic is exact; they are
    modelled by [Z], with [None] standing for [NaN].

    Results on concrete ledgers are computed.  The two general facts about
    doubles that are needed ([x * 1 = x], and that doubles with the same
    value are equal numbers) are derived from the Standard Library's
    specification of the primitive operations. *)

From Stdlib Require Import ZArith List String Ascii Lia Bool Sorted.
From Stdlib Require Import QArith Qpower.
From Stdlib Require Import DecimalString DecimalPos DecimalZ.
From Stdlib Require Import Uint63 PrimFloat SpecFloat FloatOps FloatAxioms.
From stdpp Require Import gmap strings.

Local Open Scope Z_scope.
Set Warnings "-inexact-float".

(* ===================================================================== *)
(** * The JavaScript host *)
(* ===================================================================== *)

Module JS.

(** ** Numbers *)

(** An integer-valued [number]; [None] is [NaN]. *)
Definition jsint : Type := option Z.

Definition jsint_sub (a b : jsint) : jsint :=
  match a, b with
  | Some x, Some y => Some (x - y)
  | _, _ => None
  end.

Definition jsint_add (a b : jsint) : jsint :=
  match a, b with
  | Some x, Some y => Some (x + y)
  | _, _ => None
  end.

Definition jsint_mul (a b : jsint) : jsint :=
  match a, b with
  | Some x, Some y => Some (x * y)
  | _, _ => None
  end.

(** The double with the value of an integer (exact below 2^53). *)
Definition Z2F (z : Z) : float :=
  match z with
  | Z0 => PrimFloat.zero
  | Zpos _ => PrimFloat.of_uint63 (Uint63.of_Z z)
  | Zneg p => PrimFloat.opp (PrimFloat.of_uint63 (Uint63.of_Z (Zpos p)))
  end.

Definition toNumber (n : jsint) : float :=
  match n with
  | Some z => Z2F z
  | None => PrimFloat.nan
  end.

(** The rational value of a finite double; [None] for [NaN] and the
    infinities. *)
Definition numValue (x : float) : option Q :=
  match Prim2SF x with
  | S754_zero _ => Some 0%Q
  | S754_finite s m e =>
      let mag := (inject_Z (Zpos m) * Qpower 2 e)%Q in
      Some (if s then Qopp mag else mag)
  | _ => None
  end.

(** [Number.prototype.toString] on an integer. *)
Definition numberToString (z : Z) : string :=
  NilZero.string_of_int (Z.to_int z).

Definition digit36 (d : Z) : ascii :=
  if d <? 10 then ascii_of_N (Z.to_N (48 + d))
  else ascii_of_N (Z.to_N (97 + (d - 10))).

Fixpoint toString36_go (fuel : nat) (n : Z) (acc : string) : string :=
  match fuel with
  | O => acc
  | S fuel' =>
      let acc' := String (digit36 (n mod 36)) acc in
      if n / 36 =? 0 then acc' else toString36_go fuel' (n / 36) acc'
  end.

(** [n.toString(36)] for a non-negative integer [n]. *)
Definition toString36 (n : Z) : string :=
  toString36_go (S (Z.to_nat (Z.log2 n))) n EmptyString.

(** ** Strings *)

(** [s.substring(n)]. *)
Fixpoint substring_from (n : nat) (s : string) : string :=
  match n, s with
  | O, _ => s
  | S n', String _ s' => substring_from n' s'
  | S _, EmptyString => EmptyString
  end.

Fixpoint replicate_char (n : nat) (c : ascii) : string :=
  match n with
  | O => EmptyString
  | S n' => String c (replicate_char n' c)
  end.

(** [s.padStart(n, c)] for a one-character filler. *)
Definition padStart (n : nat) (c : ascii) (s : string) : string :=
  (replicate_char (n - String.length s) c ++ s)%string.

(** Truthiness of a [string | null]: [null] and the empty string are
    falsy. *)
Definition truthy (s : option string) : bool :=
  match s with
  | None => false
  | Some EmptyString => false
  | Some (String _ _) => true
  end.

(** ** Dates *)

(** A [Date] object is its time value: milliseconds since the epoch, or
    [NaN] (an Invalid Date). *)
Definition Date : Type := option Z.

Definition InvalidDate : Date := None.

(** Relational operators on [Date]s compare the time values as numbers; a
    comparison with [NaN] is false. *)
Definition date_gt (a b : Date) : bool :=
  match a, b with
  | Some x, Some y => y <? x
  | _, _ => false
  end.

Definition date_le (a b : Date) : bool :=
  match a, b with
  | Some x, Some y => x <=? y
  | _, _ => false
  end.

Definition date_ge (a b : Date) : bool :=
  match a, b with
  | Some x, Some y => y <=? x
  | _, _ => false
  end.

Definition date_lt (a b : Date) : bool :=
  match a, b with
  | Some x, Some y => x <? y
  | _, _ => false
  end.

Definition msPerDay : Z := 86400000.

Definition Day (t : Z) : Z := t / msPerDay.

Definition DaysInYear (y : Z) : Z :=
  if negb (y mod 4 =? 0) then 365
  else if negb (y mod 100 =? 0) then 366
  else if negb (y mod 400 =? 0) then 365
  else 366.

Definition DayFromYear (y : Z) : Z :=
  365 * (y - 1970) + (y - 1969) / 4 - (y - 1901) / 100 + (y - 1601) / 400.

(** The year whose first day is the last one not after [Day t]: an estimate
    from the mean length of a year, corrected by at most one. *)
Definition YearFromDay (d : Z) : Z :=
  let y := 1970 + d * 400 / 146097 in
  if d <? DayFromYear y then y - 1
  else if DayFromYear (y + 1) <=? d then y + 1
  else y.

Definition YearFromTime (t : Z) : Z := YearFromDay (Day t).

Definition InLeapYear (t : Z) : Z :=
  if DaysInYear (YearFromTime t) =? 366 then 1 else 0.

Definition DayWithinYear (t : Z) : Z :=
  Day t - DayFromYear (YearFromTime t).

Definition MonthFromTime (t : Z) : Z :=
  let d := DayWithinYear t in
  let l := InLeapYear t in
  if d <? 31 then 0
  else if d <? 59 + l then 1
  else if d <? 90 + l then 2
  else if d <? 120 + l then 3
  else if d <? 151 + l then 4
  else if d <? 181 + l then 5
  else if d <? 212 + l then 6
  else if d <? 243 + l then 7
  else if d <? 273 + l then 8
  else if d <? 304 + l then 9
  else if d <? 334 + l then 10
  else 11.

(** Days from the start of a year to the start of its month [m] (0-11). *)
Definition DaysBeforeMonth (leap m : Z) : Z :=
  match m with
  | 0 => 0
  | 1 => 31
  | 2 => 59 + leap
  | 3 => 90 + leap
  | 4 => 120 + leap
  | 5 => 151 + leap
  | 6 => 181 + leap
  | 7 => 212 + leap
  | 8 => 243 + leap
  | 9 => 273 + leap
  | 10 => 304 + leap
  | _ => 334 + leap
  end.

Definition DaysInMonth (y m : Z) : Z :=
  let leap := if DaysInYear y =? 366 then 1 else 0 in
  if m =? 11 then 31 else DaysBeforeMonth leap (m + 1) - DaysBeforeMonth leap m.

(** The host: the zone's offset of local time from UTC in milliseconds, and
    the [Date(string)] constructor.  The offset depends on the instant
    (daylight saving time, changes of the zone's rules): [LocalTZA t true] is
    the offset in force at the UTC time [t], and [LocalTZA t false] the one
    by which the local time [t] is read. *)
Record Host : Type := {
  LocalTZA : Z -> bool -> Z;
  DateParse : string -> Date
}.

Section DateMethods.
Context (host : Host).

Definition LocalTime (t : Z) : Z := t + LocalTZA host t true.

Definition getFullYear (d : Date) : jsint :=
  match d with
  | Some t => Some (YearFromTime (LocalTime t))
  | None => None
  end.

Definition getMonth (d : Date) : jsint :=
  match d with
  | Some t => Some (MonthFromTime (LocalTime t))
  | None => None
  end.

Definition getTime (d : Date) : jsint := d.

Definition newDate (s : string) : Date := DateParse host s.
End DateMethods.

(** ** The date-time string format

    [YYYY-MM-DD] (UTC midnight) and [YYYY-MM-DDTHH:mm:ss.sssZ], the form
    [toISOString] writes for the years 0 to 9999 and so what the application
    stores for them.  Hosts read more than this (the other forms of the
    format, signed six-digit years, and strings outside the format as each
    sees fit), which is why the constructor is a field of [Host]; the parser
    below reads these two forms, and any other string is an Invalid Date for
    it. *)

Definition digitval (c : ascii) : option Z :=
  let n := Z.of_N (N_of_ascii c) in
  if (48 <=? n) && (n <=? 57) then Some (n - 48) else None.

Fixpoint digits (n : nat) (acc : Z) (s : string) : option (Z * string) :=
  match n with
  | O => Some (acc, s)
  | S n' =>
      match s with
      | String c s' =>
          match digitval c with
          | Some d => digits n' (10 * acc + d) s'
          | None => None
          end
      | EmptyString => None
      end
  end.

Definition expect (c : ascii) (s : string) : option string :=
  match s with
  | String c' s' => if Ascii.eqb c c' then Some s' else None
  | EmptyString => None
  end.

Definition MakeDay (y m dt : Z) : Z :=
  let leap := if DaysInYear y =? 366 then 1 else 0 in
  DayFromYear y + DaysBeforeMonth leap m + (dt - 1).

Definition MakeTime (h mi s ms : Z) : Z :=
  h * 3600000 + mi * 60000 + s * 1000 + ms.

Definition parseTimePart (s : string) : option Z :=
  '(h, s) ← digits 2 0 s;
  s ← expect ":" s;
  '(mi, s) ← digits 2 0 s;
  s ← expect ":" s;
  '(sec, s) ← digits 2 0 s;
  s ← expect "." s;
  '(ms, s) ← digits 3 0 s;
  s ← expect "Z" s;
  match s with
  | EmptyString =>
      if (h <=? 23) && (mi <=? 59) && (sec <=? 59)
      then Some (MakeTime h mi sec ms) else None
  | _ => None
  end.

Definition parseISO (s : string) : Date :=
  '(y, s) ← digits 4 0 s;
  s ← expect "-" s;
  '(m, s) ← digits 2 0 s;
  s ← expect "-" s;
  '(d, s) ← digits 2 0 s;
  if (1 <=? m) && (m <=? 12) && (1 <=? d) && (d <=? DaysInMonth y (m - 1))
  then
    match s with
    | EmptyString => Some (MakeDay y (m - 1) d * msPerDay)
    | String c s' =>
        if Ascii.eqb c "T"
        then t ← parseTimePart s'; Some (MakeDay y (m - 1) d * msPerDay + t)
        else None
    end
  else None.

(** A host in a zone whose offset is always [tz] (milliseconds east of
    UTC). *)
Definition isoHost (tz : Z) : Host :=
  {| LocalTZA := fun _ _ => tz; DateParse := parseISO |}.

(** ** More of [Date]: fields, [setMonth], [toISOString] *)

Definition TimeWithinDay (t : Z) : Z := t mod msPerDay.

Definition DateFromTime (t : Z) : Z :=
  DayWithinYear t - DaysBeforeMonth (InLeapYear t) (MonthFromTime t) + 1.

Definition HourFromTime (t : Z) : Z := (t / 3600000) mod 24.
Definition MinFromTime (t : Z) : Z := (t / 60000) mod 60.
Definition SecFromTime (t : Z) : Z := (t / 1000) mod 60.
Definition msFromTime (t : Z) : Z := t mod 1000.

Definition maxTime : Z := 8640000000000000.

(** A time value outside the range of [Date] is [NaN]. *)
Definition TimeClip (t : Z) : Date :=
  if Z.abs t <=? maxTime then Some t else None.

(** [MakeDay] for a month number outside 0-11, which is carried into the
    year. *)
Definition MakeDayCarry (year month date : Z) : Z :=
  MakeDay (year + month / 12) (month mod 12) date.

Section DateSetters.
Context (host : Host).

Definition UTC (t : Z) : Z := t - LocalTZA host t false.

(** [d.setMonth(month)], as the [Date] it leaves. *)
Definition setMonth (d : Date) (month : jsint) : Date :=
  match d, month with
  | Some t, Some m =>
      let lt := LocalTime host t in
      TimeClip
        (UTC (MakeDayCarry (YearFromTime lt) m (DateFromTime lt) * msPerDay
              + TimeWithinDay lt))
  | _, _ => None
  end.
End DateSetters.

Definition digitChar (d : Z) : ascii := ascii_of_N (Z.to_N (48 + d)).

(** The last [n] decimal digits of [z], most significant first. *)
Fixpoint fixedDigits (n : nat) (z : Z) : string :=
  match n with
  | O => EmptyString
  | S n' =>
      (fixedDigits n' (z / 10) ++ String (digitChar (z mod 10)) EmptyString)%string
  end.

(** [d.toISOString()]; [None] is the [RangeError] an Invalid Date throws.
    Years outside 0-9999 are written with a sign and six digits. *)
Definition toISOString (d : Date) : option string :=
  match d with
  | None => None
  | Some t =>
      let y := YearFromTime t in
      let sign := if y <? 0 then "-"%string else "+"%string in
      let year :=
        if (0 <=? y) && (y <=? 9999) then fixedDigits 4 y
        else (sign ++ fixedDigits 6 (Z.abs y))%string in
      Some (year ++ "-" ++ fixedDigits 2 (MonthFromTime t + 1)
                 ++ "-" ++ fixedDigits 2 (DateFromTime t)
                 ++ "T" ++ fixedDigits 2 (HourFromTime t)
                 ++ ":" ++ fixedDigits 2 (MinFromTime t)
                 ++ ":" ++ fixedDigits 2 (SecFromTime t)
                 ++ "." ++ fixedDigits 3 (msFromTime t) ++ "Z")%string
  end.

(** ** [Array.prototype.sort] with a comparator

    The sort is stable, so for a consistent comparator its result is the
    one stable insertion computes.  A comparator result of [NaN] counts as
    0; a comparator that is inconsistent because of it leaves the order to
    the implementation, and this is then one of the orders allowed. *)

Definition SortCompare (v : jsint) : Z :=
  match v with
  | Some z => z
  | None => 0
  end.

Fixpoint sortInsert {A : Type} (comparefn : A -> A -> jsint) (x : A)
    (l : list A) : list A :=
  match l with
  | [] => [x]
  | y :: l' =>
      if 0 <? SortCompare (comparefn x y)
      then y :: sortInsert comparefn x l'
      else x :: l
  end.

Definition sort {A : Type} (comparefn : A -> A -> jsint) (l : list A) : list A :=
  fold_right (sortInsert comparefn) [] l.

(** [isNaN(x)] on a number. *)
Definition isNaN (x : float) : bool := negb (PrimFloat.eqb x x).

End JS.

(* ===================================================================== *)
(** * The finance hook *)
(* ===================================================================== *)

Module Finance.
Import JS.

Inductive TransactionType : Type := income | expense.
Inductive RecurrenceType : Type := none | monthly | yearly.

Record Transaction : Type := {
  id : string;
  type : TransactionType;
  amount : float;
  date : string;
  description : string;
  recurrence : RecurrenceType
}.

(** [Omit<Transaction, 'id'>] *)
Record TransactionDraft : Type := {
  draft_type : TransactionType;
  draft_amount : float;
  draft_date : string;
  draft_description : string;
  draft_recurrence : RecurrenceType
}.

Record FinanceState : Type := {
  initialBalance : float;
  initialDate : option string;
  transactions : list Transaction;
  targetDate : option string
}.

(** The state [useState] starts from. *)
Definition emptyState : FinanceState :=
  {| initialBalance := 0%float;
     initialDate := None;
     transactions := [];
     targetDate := None |}.

(** [Math.random().toString(36).substring(2) + Date.now().toString(36)];
    [rnd] is what [Math.random().toString(36)] returned and [now] what
    [Date.now()] returned. *)
Definition generateId (rnd : string) (now : Z) : string :=
  (substring_from 2 rnd ++ toString36 now)%string.

(** ** Mutations

    Each one builds the next snapshot from the current one; the snapshot is
    then handed to [setState] and to [saveData], which are not modelled. *)

Definition addTransaction (state : FinanceState) (transaction : TransactionDraft)
    (rnd : string) (now : Z) : FinanceState :=
  let newTransaction :=
    {| id := generateId rnd now;
       type := draft_type transaction;
       amount := draft_amount transaction;
       date := draft_date transaction;
       description := draft_description transaction;
       recurrence := draft_recurrence transaction |} in
  {| initialBalance := initialBalance state;
     initialDate := initialDate state;
     transactions := transactions state ++ [newTransaction];
     targetDate := targetDate state |}.

Definition deleteTransaction (state : FinanceState) (i : string) : FinanceState :=
  {| initialBalance := initialBalance state;
     initialDate := initialDate state;
     transactions :=
       List.filter (fun t => negb (String.eqb (id t) i)) (transactions state);
     targetDate := targetDate state |}.

Definition setInitialBalance (state : FinanceState) (balance : float)
    (d : string) : FinanceState :=
  {| initialBalance := balance;
     initialDate := Some d;
     transactions := transactions state;
     targetDate := targetDate state |}.

Definition setTargetDate (state : FinanceState) (d : option string) : FinanceState :=
  {| initialBalance := initialBalance state;
     initialDate := initialDate state;
     transactions := transactions state;
     targetDate := d |}.

Definition clearAllData (state : FinanceState) : FinanceState :=
  {| initialBalance := 0%float;
     initialDate := None;
     transactions := [];
     targetDate := None |}.

(** ** Projection *)

Section Projection.
Context (host : Host).

Definition isSameMonth (date1 date2 : Date) : bool :=
  bool_decide (getFullYear host date1 = getFullYear host date2
               /\ getFullYear host date1 <> None)
  && bool_decide (getMonth host date1 = getMonth host date2
                  /\ getMonth host date1 <> None).

Definition isSameYear (date1 date2 : Date) : bool :=
  bool_decide (getFullYear host date1 = getFullYear host date2
               /\ getFullYear host date1 <> None).

Definition isDateBefore (date1 date2 : Date) : bool :=
  date_le date1 date2.

Definition getMonthsBetween (start end_ : Date) : jsint :=
  jsint_add
    (jsint_mul (jsint_sub (getFullYear host end_) (getFullYear host start))
               (Some 12))
    (jsint_sub (getMonth host end_) (getMonth host start)).

Definition getYearsBetween (start end_ : Date) : jsint :=
  jsint_sub (getFullYear host end_) (getFullYear host start).

(** [type === 'income' ? amount : -amount] *)
Definition signedAmount (transaction : Transaction) : float :=
  match type transaction with
  | income => amount transaction
  | expense => (- amount transaction)%float
  end.

Definition calculateRecurringAmount (transaction : Transaction)
    (startDate endDate : Date) : float :=
  let amount := signedAmount transaction in
  match recurrence transaction with
  | none => amount
  | monthly =>
      let months := getMonthsBetween startDate endDate in
      (amount * toNumber (jsint_add months (Some 1%Z)))%float
  | yearly =>
      let years := getYearsBetween startDate endDate in
      (amount * toNumber (jsint_add years (Some 1%Z)))%float
  end.

(** The body of the [forEach] callback, as the balance it leaves. *)
Definition applyTransaction (targetDate : Date) (balance : float)
    (transaction : Transaction) : float :=
  let transactionDate := newDate host (date transaction) in
  match recurrence transaction with
  | none =>
      if date_gt transactionDate targetDate then balance
      else if date_le transactionDate targetDate
      then (balance + signedAmount transaction)%float
      else balance
  | _ =>
      if date_le transactionDate targetDate
      then (balance
            + calculateRecurringAmount transaction transactionDate targetDate)%float
      else balance
  end.

Definition getBalanceAtDate (state : FinanceState) (targetDate : Date) : float :=
  if negb (truthy (initialDate state)) then 0%float
  else
    let initialDate := option_map (newDate host) (initialDate state) in
    fold_left (applyTransaction targetDate) (transactions state)
              (initialBalance state).

Definition getCurrentBalance (state : FinanceState) (now : Date) : float :=
  getBalanceAtDate state now.

Definition getProjectedBalance (state : FinanceState) (d : Date) : float :=
  getBalanceAtDate state d.
End Projection.

End Finance.

(* ===================================================================== *)
(** * The charts screen: monthly aggregation *)
(* ===================================================================== *)

Module Charts.
Import JS.

Inductive TimeRange : Type := R3M | R6M | R1Y | RALL.

Definition rangeInMonths (timeRange : TimeRange) : Z :=
  match timeRange with
  | R3M => 3
  | R6M => 6
  | R1Y => 12
  | RALL => 999
  end.

Record MonthBucket : Type := {
  income : float;
  expense : float;
  balance : float
}.

Section Stats.
Context (host : Host).

(** [`${date.getFullYear()}-${String(date.getMonth() + 1).padStart(2, '0')}`];
    both numbers print as [NaN] for an Invalid Date. *)
Definition monthKey (d : Date) : string :=
  match getFullYear host d, getMonth host d with
  | Some y, Some m =>
      (numberToString y ++ "-" ++ padStart 2 "0" (numberToString (m + 1)))%string
  | _, _ => "NaN-NaN"%string
  end.

(** [transactions.filter(t => new Date(t.date) >= cutoffDate)] *)
Definition filteredTransactions (cutoffDate : Date)
    (transactions : list Finance.Transaction) : list Finance.Transaction :=
  List.filter (fun t => date_ge (newDate host (Finance.date t)) cutoffDate)
              transactions.

(** The reducer of [monthlyData]. *)
Definition monthlyStep (acc : gmap string MonthBucket)
    (t : Finance.Transaction) : gmap string MonthBucket :=
  let date := newDate host (Finance.date t) in
  let monthKey := monthKey date in
  let slot :=
    match acc !! monthKey with
    | Some b => b
    | None => {| income := 0; expense := 0; balance := 0 |}
    end in
  let slot :=
    match Finance.type t with
    | Finance.income =>
        {| income := income slot + Finance.amount t;
           expense := expense slot;
           balance := balance slot |}
    | Finance.expense =>
        {| income := income slot;
           expense := expense slot + Finance.amount t;
           balance := balance slot |}
    end in
  <[monthKey := {| income := income slot;
                   expense := expense slot;
                   balance := income slot - expense slot |}]> acc.

Definition monthlyData (cutoffDate : Date)
    (transactions : list Finance.Transaction) : gmap string MonthBucket :=
  fold_left monthlyStep (filteredTransactions cutoffDate transactions) ∅.

Definition totalIncome (cutoffDate : Date)
    (transactions : list Finance.Transaction) : float :=
  fold_left (fun sum t => (sum + Finance.amount t)%float)
    (List.filter
       (fun t => match Finance.type t with Finance.income => true | _ => false end)
       (filteredTransactions cutoffDate transactions))
    0%float.

Definition totalExpense (cutoffDate : Date)
    (transactions : list Finance.Transaction) : float :=
  fold_left (fun sum t => (sum + Finance.amount t)%float)
    (List.filter
       (fun t => match Finance.type t with Finance.expense => true | _ => false end)
       (filteredTransactions cutoffDate transactions))
    0%float.
End Stats.

Section Range.
Context (host : Host).

(** [new Date(now.setMonth(now.getMonth() - rangeInMonths))] *)
Definition cutoffDate (now : Date) (timeRange : TimeRange) : Date :=
  setMonth host now
    (jsint_sub (getMonth host now) (Some (rangeInMonths timeRange))).

(** [totalIncome > 0 ? ((totalIncome - totalExpense) / totalIncome) * 100 : 0] *)
Definition savingsRate (cutoffDate : Date)
    (transactions : list Finance.Transaction) : float :=
  let totalIncome := totalIncome host cutoffDate transactions in
  let totalExpense := totalExpense host cutoffDate transactions in
  if PrimFloat.ltb 0 totalIncome
  then ((totalIncome - totalExpense) / totalIncome * 100)%float
  else 0%float.

(** What the [stats] memo returns for the clock reading [now]. *)
Definition stats (now : Date) (timeRange : TimeRange)
    (transactions : list Finance.Transaction)
    : float * float * gmap string MonthBucket * float :=
  let cutoffDate := cutoffDate now timeRange in
  (totalIncome host cutoffDate transactions,
   totalExpense host cutoffDate transactions,
   monthlyData host cutoffDate transactions,
   savingsRate cutoffDate transactions).
End Range.

End Charts.

(* ===================================================================== *)
(** * The hook's storage *)
(* ===================================================================== *)

(** Every component that calls [useFinance] holds a state of its own; what
    they share is the item under [STORAGE_KEY] in [AsyncStorage]. *)
Module Persistence.
Import JS Finance.

Definition STORAGE_KEY : string := "@finance_data".

Section Storage.
(** [JSON.stringify] and [JSON.parse] on a ledger; [None] is the
    [SyntaxError] of [JSON.parse]. *)
Context (stringify : FinanceState -> string).
Context (parse : string -> option FinanceState).

(** [loadData], as the state it leaves: it is replaced when the item exists,
    is not empty and parses; otherwise (also when [JSON.parse] throws, which
    is caught) it stays. *)
Definition loadData (storage : gmap string string) (state : FinanceState)
    : FinanceState :=
  match storage !! STORAGE_KEY with
  | Some data =>
      if truthy (Some data)
      then match parse data with
           | Some loaded => loaded
           | None => state
           end
      else state
  | None => state
  end.

(** [saveData]; [written] tells whether [AsyncStorage.setItem] succeeded (a
    failure is caught and logged). *)
Definition saveData (written : bool) (storage : gmap string string)
    (newState : FinanceState) : gmap string string :=
  if written then <[STORAGE_KEY := stringify newState]> storage else storage.

(** A mutation of the hook: [setState(newState)] and [saveData(newState)],
    [newState] computed from the state of the component that calls it. *)
Definition mutate (change : FinanceState -> FinanceState) (written : bool)
    (component : FinanceState) (storage : gmap string string)
    : FinanceState * gmap string string :=
  let newState := change component in
  (newState, saveData written storage newState).
End Storage.

(** What the object returned by [useFinance] holds under a name. *)
Inductive Member : Type :=
| Data
| Reset (run : FinanceState -> FinanceState)
| Function.

Definition useFinance_returns : gmap string Member :=
  list_to_map
    [("initialBalance"%string, Data); ("initialDate"%string, Data);
     ("targetDate"%string, Data); ("transactions"%string, Data);
     ("currentBalance"%string, Data);
     ("getProjectedBalance"%string, Function);
     ("addTransaction"%string, Function);
     ("deleteTransaction"%string, Function);
     ("setInitialBalance"%string, Function);
     ("setTargetDate"%string, Function);
     ("clearAllData"%string, Reset clearAllData)].

End Persistence.

(* ===================================================================== *)
(** * The screens that feed and read the hook *)
(* ===================================================================== *)

(** The outcome of a form's [handleSubmit]: the message it puts in [setError],
    or what it passes on to the hook. *)
Inductive Outcome (A : Type) : Type :=
| Rejected (error : string)
| Accepted (value : A).

Arguments Rejected {A} error.
Arguments Accepted {A} value.

Module TransactionForm.
Import JS Finance.

Section Submit.
(** [parseFloat] of the host. *)
Context (parseFloat : string -> float).

(** [handleSubmit] up to the call of [addTransaction]: the draft it passes.
    A [RangeError] of [toISOString] lands in the [catch]. *)
Definition handleSubmit (type : TransactionType) (date : Date)
    (recurrence : RecurrenceType) (amount description : string)
    : Outcome TransactionDraft :=
  if negb (truthy (Some amount)) || negb (truthy (Some description))
  then Rejected "Please fill in all fields"
  else
    let parsedAmount := parseFloat amount in
    if isNaN parsedAmount || PrimFloat.leb parsedAmount 0
    then Rejected "Please enter a valid positive amount"
    else
      match toISOString date with
      | Some iso =>
          Accepted {| draft_type := type;
                      draft_amount := parsedAmount;
                      draft_date := iso;
                      draft_description := description;
                      draft_recurrence := recurrence |}
      | None => Rejected "Failed to add transaction. Please try again."
      end.
End Submit.

End TransactionForm.

Module CurrentBalance.
Import JS Finance.

Section Submit.
Context (parseFloat : string -> float).

(** [handleSubmit] up to the call of [setInitialBalance]: its two arguments.
    Nothing catches a [RangeError] of [toISOString] here; [None] is that
    exception. *)
Definition handleSubmit (initialBalance : string) (initialDate : Date)
    : option (Outcome (float * string)) :=
  if negb (truthy (Some initialBalance))
  then Some (Rejected "Please enter an initial balance")
  else
    let amount := parseFloat initialBalance in
    if isNaN amount || PrimFloat.ltb amount 0
    then Some (Rejected "Please enter a valid positive amount")
    else
      match toISOString initialDate with
      | Some iso => Some (Accepted (amount, iso))
      | None => None
      end.
End Submit.

End CurrentBalance.

Module TransactionList.
Import JS Finance.

Section View.
Context (host : Host).

(** [(a, b) => new Date(b.date).getTime() - new Date(a.date).getTime()] *)
Definition byDateDescending (a b : Transaction) : jsint :=
  jsint_sub (getTime (newDate host (date b))) (getTime (newDate host (date a))).

(** [[...transactions].sort(...)] *)
Definition sortedTransactions (transactions : list Transaction)
    : list Transaction :=
  sort byDateDescending transactions.
End View.

End TransactionList.

Module Settings.
Import JS Finance.

(** A transaction as the export writes it: its fields, the date rewritten,
    and [createdAt]. *)
Record ExportedTransaction : Type := {
  exported : Transaction;
  createdAt : string
}.

Record ExportData : Type := {
  exportTransactions : list ExportedTransaction;
  exportDate : string;
  appVersion : string
}.

(** [handleClearData]: the state of the screen's hook afterwards and the
    title of the alert.  The screen takes [clearTransactions] out of the
    object [useFinance] returns; calling what is not a function throws, and
    the [catch] alerts the failure. *)
Definition handleClearData (state : FinanceState) : FinanceState * string :=
  match Persistence.useFinance_returns !! "clearTransactions"%string with
  | Some (Persistence.Reset clearTransactions) =>
      (clearTransactions state, "Success"%string)
  | _ => (state, "Error"%string)
  end.

Section ExportFile.
Context (host : Host).
(** The clock: what the [i]-th [new Date()] of an export reads. *)
Context (clock : nat -> Z).

(** [{...t, date: new Date(t.date).toISOString(),
        createdAt: new Date().toISOString()}], at clock reading [i]. *)
Definition exportTransaction (i : nat) (t : Transaction)
    : option ExportedTransaction :=
  iso ← toISOString (newDate host (date t));
  created ← toISOString (Some (clock i));
  Some {| exported :=
            {| id := id t; type := type t; amount := amount t; date := iso;
               description := description t; recurrence := recurrence t |};
          createdAt := created |}.

(** [transactions.map(...)], from clock reading [i] on. *)
Fixpoint exportTransactions_from (i : nat) (transactions : list Transaction)
    : option (list ExportedTransaction) :=
  match transactions with
  | [] => Some []
  | t :: rest =>
      e ← exportTransaction i t;
      es ← exportTransactions_from (S i) rest;
      Some (e :: es)
  end.

(** The object [handleExportData] serializes; [None] when a [toISOString]
    throws, which sends it to the [catch] ("Export Failed"). *)
Definition exportData (transactions : list Transaction) : option ExportData :=
  ts ← exportTransactions_from 0 transactions;
  stamp ← toISOString (Some (clock (length transactions)));
  Some {| exportTransactions := ts; exportDate := stamp;
          appVersion := "1.0.0" |}.
End ExportFile.

End Settings.

(* ===================================================================== *)
(** * Properties of the projection *)
(* ===================================================================== *)

Import JS Finance.

(** What a transaction adds when the loop reaches it: nothing unless its date
    is on or before the target, else the amount [calculateRecurringAmount]
    gives (which for a one-time transaction is its signed amount). *)
Definition contribution (host : Host) (targetDate : Date)
    (transaction : Transaction) : option float :=
  let transactionDate := newDate host (date transaction) in
  if date_le transactionDate targetDate
  then Some (calculateRecurringAmount host transaction transactionDate targetDate)
  else None.

Definition addContribution (balance : float) (c : option float) : float :=
  match c with
  | Some x => (balance + x)%float
  | None => balance
  end.

(** All running additions of [xs] onto [b] are finite and none of them
    rounds. *)
Definition exactAdd (a b : float) : bool :=
  match numValue a, numValue b, numValue (a + b) with
  | Some x, Some y, Some z => Qeq_bool z (x + y)
  | _, _, _ => false
  end.

Fixpoint exactSum (b : float) (xs : list float) : bool :=
  match xs with
  | [] => match numValue b with Some _ => true | None => false end
  | x :: xs' => exactAdd b x && exactSum (b + x) xs'
  end.

Definition valueOr0 (x : float) : Q :=
  match numValue x with
  | Some q => q
  | None => 0%Q
  end.

Definition sumQ (xs : list float) : Q :=
  fold_right (fun x acc => (valueOr0 x + acc)%Q) 0%Q xs.

(** The calls a component makes on the hook; an [addTransaction] comes with
    what [Math.random().toString(36)] and [Date.now()] returned to its
    [generateId]. *)
Inductive Call : Type :=
| callAdd (transaction : TransactionDraft) (rnd : string) (now : Z)
| callDelete (i : string)
| callSetInitialBalance (balance : float) (d : string)
| callSetTargetDate (d : option string)
| callClear.

Definition perform (state : FinanceState) (c : Call) : FinanceState :=
  match c with
  | callAdd transaction rnd now => addTransaction state transaction rnd now
  | callDelete i => deleteTransaction state i
  | callSetInitialBalance balance d => setInitialBalance state balance d
  | callSetTargetDate d => setTargetDate state d
  | callClear => clearAllData state
  end.

(** The ledger after a sequence of calls, from the state [useState] starts
    from. *)
Definition run (calls : list Call) : FinanceState :=
  fold_left perform calls emptyState.

(** What each [addTransaction] of a sequence drew: the random digits that
    enter the id and the clock reading. *)
Fixpoint draws (calls : list Call) : list (string * Z) :=
  match calls with
  | [] => []
  | callAdd _ rnd now :: rest => (substring_from 2 rnd, now) :: draws rest
  | _ :: rest => draws rest
  end.

(** The id made of a draw. *)
Definition idOf (d : string * Z) : string :=
  (fst d ++ toString36 (snd d))%string.

(** A clock reading that has eight digits in base 36: an instant from
    25 June 1972 to 25 May 2059. *)
Definition eightDigits (now : Z) : Prop := 36 ^ 7 <= now < 36 ^ 8.

(** ** The ledgers used as examples *)

Definition salaryDraft : TransactionDraft :=
  {| draft_type := income; draft_amount := 500; draft_date := "2024-02-01";
     draft_description := "salary"; draft_recurrence := none |}.

Definition rentDraft : TransactionDraft :=
  {| draft_type := expense; draft_amount := 200; draft_date := "2024-01-01";
     draft_description := "rent"; draft_recurrence := monthly |}.

(** Initial balance 1000 on 2024-01-01 and nothing else. *)
Definition anchored : FinanceState :=
  setInitialBalance emptyState 1000 "2024-01-01".

(** Initial balance 1000 on 2024-01-01, an income of 500 on 2024-02-01 and a
    monthly expense of 200 from 2024-01-01. *)
Definition scenario : FinanceState :=
  addTransaction
    (addTransaction anchored salaryDraft "0.4fzyo82mvyr" 1709251200000)
    rentDraft "0.9x2k1q7c3ab" 1709251200001.

Definition salaryTx : Transaction :=
  {| id := generateId "0.4fzyo82mvyr" 1709251200000;
     type := income; amount := 500; date := "2024-02-01";
     description := "salary"; recurrence := none |}.

Definition rentTx : Transaction :=
  {| id := generateId "0.9x2k1q7c3ab" 1709251200001;
     type := expense; amount := 200; date := "2024-01-01";
     description := "rent"; recurrence := monthly |}.

(** The transactions of [scenario] and a balance, but no anchor date. *)
Definition unanchored : FinanceState :=
  {| initialBalance := 1000; initialDate := None;
     transactions := [salaryTx; rentTx]; targetDate := None |}.

(** A yearly subscription that started in 2020, long before any chart
    cutoff used below. *)
Definition oldTx : Transaction :=
  {| id := "old"; type := expense; amount := 99; date := "2020-06-01";
     description := "subscription"; recurrence := yearly |}.

(** An income of 50 dated 2023-11-20, before the anchor of [anchored]. *)
Definition earlyTx : Transaction :=
  {| id := "early"; type := income; amount := 50; date := "2023-11-20";
     description := "refund"; recurrence := none |}.

(** Two additions in the same millisecond for which [Math.random()]
    returned 0.5 both times; 0.5 is [0.i] in base 36. *)
Definition collidedCalls : list Call :=
  [ callAdd salaryDraft "0.i" 1709251200000;
    callAdd rentDraft "0.i" 1709251200000 ].

(** Additions in the same and in different milliseconds ([Math.random()]
    returned 0.5, 0.25 and 0.5), and a deletion, on an anchored ledger. *)
Definition distinctCalls : list Call :=
  [ callSetInitialBalance 1000 "2024-01-01";
    callAdd salaryDraft "0.i" 1709251200000;
    callAdd rentDraft "0.9" 1709251200000;
    callAdd rentDraft "0.i" 1709251200001;
    callDelete "9lt7w16o0" ].

(** [anchored] with the monthly rent alone. *)
Definition rentLedger : FinanceState :=
  addTransaction anchored rentDraft "0.9x2k1q7c3ab" 1709251200001.

Definition withRecurrence (t : Transaction) (r : RecurrenceType) : Transaction :=
  {| id := id t; type := type t; amount := amount t; date := date t;
     description := description t; recurrence := r |}.

(** The net change the chart shows: the monthly balances of all its buckets,
    added up. *)
Definition sumOfMonthlyBalances (m : gmap string Charts.MonthBucket) : float :=
  map_fold (fun _ b acc => (acc + Charts.balance b)%float) 0%float m.

(** Three incomes of 0.1, 0.2 and 0.3 on the anchor date, entered in this
    order and in the opposite one. *)
Definition dime (i : string) (a : float) : Transaction :=
  {| id := i; type := income; amount := a; date := "2024-01-01";
     description := "coins"; recurrence := none |}.

Definition decimals : FinanceState :=
  {| initialBalance := 0; initialDate := Some "2024-01-01"%string;
     transactions := [dime "a" 0.1; dime "b" 0.2; dime "c" 0.3];
     targetDate := None |}.

Definition decimalsReversed : FinanceState :=
  {| initialBalance := 0; initialDate := Some "2024-01-01"%string;
     transactions := [dime "c" 0.3; dime "b" 0.2; dime "a" 0.1];
     targetDate := None |}.

Definition earlyLedger : FinanceState :=
  {| initialBalance := 1000; initialDate := Some "2024-01-01"%string;
     transactions := [earlyTx]; targetDate := None |}.

(** ** Further example data *)

(** A transaction whose date is not a date. *)
Definition undatedTx : Transaction :=
  {| id := "undated"; type := income; amount := 75; date := "soon";
     description := "gift"; recurrence := monthly |}.

Definition undatedLedger : FinanceState :=
  {| initialBalance := 1000; initialDate := Some "2024-01-01"%string;
     transactions := [salaryTx; undatedTx]; targetDate := None |}.

(** [scenario] with other ids, descriptions, anchor date and target. *)
Definition relabelled : FinanceState :=
  {| initialBalance := 1000; initialDate := Some "1999-12-31"%string;
     transactions :=
       [ {| id := "s"; type := income; amount := 500; date := "2024-02-01";
            description := "pay"; recurrence := none |};
         {| id := "r"; type := expense; amount := 200; date := "2024-01-01";
            description := "flat"; recurrence := monthly |} ];
     targetDate := Some "2030-01-01"%string |}.

(** The fields of a transaction that the projection reads. *)
Definition sameMoney (t t' : Transaction) : Prop :=
  type t = type t' /\ amount t = amount t' /\ date t = date t'
  /\ recurrence t = recurrence t'.

(** Reading base 36 back: the value of a digit and of a digit string. *)
Definition val36 (c : ascii) : Z :=
  let n := Z.of_N (N_of_ascii c) in
  if n <=? 57 then n - 48 else n - 87.

Fixpoint from36 (acc : Z) (s : string) : Z :=
  match s with
  | EmptyString => acc
  | String c s' => from36 (acc * 36 + val36 c) s'
  end.

(** A [parseFloat] for the examples: the two inputs they use. *)
Definition parseFloat_example (s : string) : float :=
  if String.eqb s "500" then 500%float
  else if String.eqb s "1000" then 1000%float
  else PrimFloat.nan.

(** A bucket whose balance is its income less its expense. *)
Definition balanced (b : Charts.MonthBucket) : Prop :=
  Charts.balance b = (Charts.income b - Charts.expense b)%float.

(** The key of the month a transaction falls in. *)
Definition keyOf (host : Host) (t : Transaction) : string :=
  Charts.monthKey host (newDate host (date t)).

(** The day on which month [i] begins, months counted from January of year
    0. *)
Definition monthStart (i : Z) : Z := MakeDayCarry 0 i 1.

(** A transaction with a valid date. *)
Definition dated (host : Host) (t : Transaction) : Prop :=
  newDate host (date t) <> InvalidDate.

(** [a] is dated no earlier than [b]. *)
Definition newerFirst (host : Host) (a b : Transaction) : Prop :=
  date_ge (newDate host (date a)) (newDate host (date b)) = true.

(** A clock for the examples. *)
Definition clock_example (i : nat) : Z := 1709251200000 + Z.of_nat i.

(** A [JSON] pair for the examples: it knows [scenario] and nothing else. *)
Definition stringify_example (s : FinanceState) : string := "scenario".

Definition parse_example (data : string) : option FinanceState :=
  if String.eqb data "scenario" then Some scenario else None.

(** A transaction and its exported form agree, and the exported date is the
    original one rewritten by [toISOString]. *)
Definition exportedAs (host : Host) (t : Transaction)
    (e : Settings.ExportedTransaction) : Prop :=
  id (Settings.exported e) = id t
  /\ type (Settings.exported e) = type t
  /\ amount (Settings.exported e) = amount t
  /\ description (Settings.exported e) = description t
  /\ recurrence (Settings.exported e) = recurrence t
  /\ toISOString (newDate host (date t)) = Some (date (Settings.exported e)).

(** A transaction dated in the years 0 to 9999. *)
Definition commonEra (host : Host) (t : Transaction) : Prop :=
  exists z, newDate host (date t) = Some z /\ 0 <= YearFromTime z <= 9999.

(** The zone of St. John's, Newfoundland, around the end of daylight saving
    time in 2009: at 00:01 on 1 November (02:31 UTC) local time went back an
    hour, from 2 h 30 min to 3 h 30 min behind UTC.  A local time of the
    hour that occurred twice is read by the offset before the change. *)
Definition clocksBack2009 : Z := 1257042660000.

Definition stJohns2009 : Host :=
  {| LocalTZA := fun t isUTC =>
       if t <? (if isUTC then clocksBack2009 else clocksBack2009 - 9000000)
       then -9000000 else -12600000;
     DateParse := parseISO |}.

(** The zone of New York around the start of daylight saving time in 2024:
    at 02:00 on 10 March (07:00 UTC) local time went forward an hour, from
    5 h to 4 h behind UTC.  A local time of the hour that was skipped is
    read by the offset before the change. *)
Definition clocksForward2024 : Z := 1710054000000.

Definition newYork2024 : Host :=
  {| LocalTZA := fun t isUTC =>
       if t <? (if isUTC then clocksForward2024 else clocksForward2024 - 14400000)
       then -18000000 else -14400000;
     DateParse := parseISO |}.

Example parse_epoch : JS.parseISO "1970-01-01" = Some 0.
Proof. reflexivity. Qed.

Example parse_2024 : JS.parseISO "2024-03-01T00:00:00.000Z" = Some 1709251200000.
Proof. reflexivity. Qed.

Example parse_bad : JS.parseISO "soon" = None.
Proof. reflexivity. Qed.

Example clock_changes :
  JS.parseISO "2009-11-01T02:31:00.000Z" = Some clocksBack2009
  /\ JS.parseISO "2024-03-10T07:00:00.000Z" = Some clocksForward2024.
Proof. split; reflexivity. Qed.

Example year_month_2024 :
  JS.getFullYear (JS.isoHost 0) (JS.parseISO "2024-02-29T23:59:59.999Z") = Some 2024
  /\ JS.getMonth (JS.isoHost 0) (JS.parseISO "2024-02-29T23:59:59.999Z") = Some 1
  /\ JS.getMonth (JS.isoHost 1) (JS.parseISO "2024-02-29T23:59:59.999Z") = Some 2
  /\ JS.getFullYear (JS.isoHost (-1)) (JS.parseISO "1970-01-01") = Some 1969
  /\ JS.getMonth (JS.isoHost (-1)) (JS.parseISO "1970-01-01") = Some 11.
Proof. repeat split; reflexivity. Qed.

Example toString36_ex : JS.toString36 1709251200000 = "lt7w16o0"%string.
Proof. vm_compute. reflexivity. Qed.


(** ** The calendar

    [YearFromDay] is the year ECMAScript defines (the last one that starts
    on or before the day), and the calendar fields of a time built from a
    year, a month and a day of that month are that year and that month. *)

Lemma YearFromDay_spec (d : Z) :
  DayFromYear (YearFromDay d) <= d < DayFromYear (YearFromDay d + 1).
Proof.
  unfold YearFromDay. cbv zeta.
  destruct (d <? _) eqn:H1; [apply Z.ltb_lt in H1|apply Z.ltb_ge in H1].
  - unfold DayFromYear in *. Z.div_mod_to_equations; lia.
  - destruct (_ <=? d) eqn:H2; [apply Z.leb_le in H2|apply Z.leb_gt in H2].
    + unfold DayFromYear in *. Z.div_mod_to_equations; lia.
    + lia.
Qed.

Lemma DayFromYear_mono (y1 y2 : Z) : y1 <= y2 -> DayFromYear y1 <= DayFromYear y2.
Proof. unfold DayFromYear. intros H. Z.div_mod_to_equations; lia. Qed.

Lemma YearFromDay_unique (y d : Z) :
  DayFromYear y <= d < DayFromYear (y + 1) -> YearFromDay d = y.
Proof.
  intros H. pose proof (YearFromDay_spec d) as S.
  destruct (Z.lt_trichotomy (YearFromDay d) y) as [Hlt|[Heq|Hgt]]; [|exact Heq|].
  - pose proof (DayFromYear_mono (YearFromDay d + 1) y ltac:(lia)). lia.
  - pose proof (DayFromYear_mono (y + 1) (YearFromDay d) ltac:(lia)). lia.
Qed.

Lemma DayFromYear_succ (y : Z) :
  DayFromYear (y + 1) = DayFromYear y + DaysInYear y.
Proof.
  unfold DayFromYear, DaysInYear.
  destruct (Z.eqb_spec (y mod 4) 0), (Z.eqb_spec (y mod 100) 0),
    (Z.eqb_spec (y mod 400) 0);
    cbn [negb]; Z.div_mod_to_equations; lia.
Qed.

Lemma DaysInYear_cases (y : Z) : DaysInYear y = 365 \/ DaysInYear y = 366.
Proof. unfold DaysInYear. repeat (destruct (_ =? 0); cbn [negb]); auto. Qed.

Lemma month_cases (m : Z) :
  0 <= m <= 11 ->
  m = 0 \/ m = 1 \/ m = 2 \/ m = 3 \/ m = 4 \/ m = 5 \/ m = 6
  \/ m = 7 \/ m = 8 \/ m = 9 \/ m = 10 \/ m = 11.
Proof. lia. Qed.

(** Case analysis on the twelve months. *)
Ltac each_month m Hm :=
  destruct (month_cases m Hm)
    as [->|[->|[->|[->|[->|[->|[->|[->|[->|[->|[->| ->]]]]]]]]]]].

Lemma DaysInMonth_bounds (leap m : Z) :
  leap = 0 \/ leap = 1 ->
  0 <= m <= 11 ->
  DaysBeforeMonth leap m
  + (if m =? 11 then 31 else DaysBeforeMonth leap (m + 1) - DaysBeforeMonth leap m)
  = (if m =? 11 then 365 + leap else DaysBeforeMonth leap (m + 1))
  /\ 0 <= DaysBeforeMonth leap m.
Proof.
  intros Hl Hm.
  each_month m Hm;
    destruct Hl as [-> | ->]; vm_compute; intuition discriminate.
Qed.

Lemma MonthFromDay_chain (l m d : Z) :
  l = 0 \/ l = 1 ->
  0 <= m <= 11 ->
  DaysBeforeMonth l m <= d
  < (if m =? 11 then 365 + l else DaysBeforeMonth l (m + 1)) ->
  (if d <? 31 then 0
   else if d <? 59 + l then 1
   else if d <? 90 + l then 2
   else if d <? 120 + l then 3
   else if d <? 151 + l then 4
   else if d <? 181 + l then 5
   else if d <? 212 + l then 6
   else if d <? 243 + l then 7
   else if d <? 273 + l then 8
   else if d <? 304 + l then 9
   else if d <? 334 + l then 10
   else 11) = m.
Proof.
  intros Hl Hm Hd.
  repeat match goal with
         | |- context [?a <? ?b] => destruct (Z.ltb_spec a b)
         end;
    each_month m Hm;
    try reflexivity; exfalso;
    destruct Hl as [-> | ->]; simpl in Hd; lia.
Qed.

Lemma calendar_roundtrip (y m dt t : Z) :
  0 <= m <= 11 -> 1 <= dt <= DaysInMonth y m -> 0 <= t < msPerDay ->
  YearFromTime (MakeDay y m dt * msPerDay + t) = y
  /\ MonthFromTime (MakeDay y m dt * msPerDay + t) = m.
Proof.
  intros Hm Hd Ht.
  assert (HD : Day (MakeDay y m dt * msPerDay + t) = MakeDay y m dt).
  { unfold Day, msPerDay in *. Z.div_mod_to_equations; lia. }
  unfold DaysInMonth in Hd. cbv zeta in Hd.
  assert (Hl : (if DaysInYear y =? 366 then 1 else 0) = 0
               \/ (if DaysInYear y =? 366 then 1 else 0) = 1)
    by (destruct (DaysInYear y =? 366); [right | left]; reflexivity).
  assert (Hlen : DaysInYear y = 365 + (if DaysInYear y =? 366 then 1 else 0))
    by (destruct (DaysInYear_cases y) as [E | E]; rewrite E; reflexivity).
  destruct (DaysInMonth_bounds _ m Hl Hm) as [Hend Hstart].
  assert (Hnext : (if m =? 11 then 365 + (if DaysInYear y =? 366 then 1 else 0)
                   else DaysBeforeMonth (if DaysInYear y =? 366 then 1 else 0) (m + 1))
                  <= DaysInYear y).
  { rewrite Hlen at 3. set (l := if DaysInYear y =? 366 then 1 else 0) in *.
    clearbody l. clear - Hl Hm.
    each_month m Hm;
      destruct Hl as [-> | ->]; vm_compute; discriminate. }
  assert (Hrange : DayFromYear y <= MakeDay y m dt < DayFromYear (y + 1)).
  { rewrite DayFromYear_succ. unfold MakeDay. lia. }
  assert (HY : YearFromTime (MakeDay y m dt * msPerDay + t) = y).
  { unfold YearFromTime. rewrite HD. apply YearFromDay_unique. exact Hrange. }
  split; [exact HY|].
  unfold MonthFromTime, DayWithinYear, InLeapYear. rewrite HY, HD.
  apply MonthFromDay_chain; [exact Hl | exact Hm |].
  unfold MakeDay. lia.
Qed.

(** ** Doubles: multiplying by one *)

Lemma digits2_pos_shift52 (m : positive) :
  Zpos (digits2_pos (4503599627370496 * m)) = Zpos (digits2_pos m) + 52.
Proof. cbv [Pos.mul]. cbn [digits2_pos]. lia. Qed.

Lemma iter_shr_52 (m : positive) :
  SpecFloat.iter_pos shr_1 52
    {| shr_m := Zpos (4503599627370496 * m); shr_r := false; shr_s := false |}
  = {| shr_m := Zpos m; shr_r := false; shr_s := false |}.
Proof. reflexivity. Qed.

Lemma SFmul_one (s : bool) (m : positive) (e : Z) :
  bounded prec emax m e = true ->
  binary_round_aux prec emax s (Zpos (m * 4503599627370496)) (e + -52) loc_Exact
  = S754_finite s m e.
Proof.
  intros Hb. unfold bounded, canonical_mantissa in Hb.
  apply andb_true_iff in Hb. destruct Hb as [Hc He].
  apply Z.eqb_eq in Hc. apply Z.leb_le in He.
  rewrite Pos.mul_comm.
  unfold binary_round_aux, shr_fexp.
  unfold Zdigits2 at 1. rewrite digits2_pos_shift52.
  replace (fexp prec emax (Z.pos (digits2_pos m) + 52 + (e + -52)) - (e + -52))
    with 52 by (unfold fexp in *; lia).
  unfold shr at 1. cbn [shr_record_of_loc]. rewrite iter_shr_52.
  cbn [shr_record_of_loc shr_m loc_of_shr_record round_nearest_even Zdigits2].
  replace (e + -52 + 52) with e by lia.
  rewrite Hc, Z.sub_diag. cbn [shr shr_m].
  apply Z.leb_le in He. rewrite He. reflexivity.
Qed.

Lemma float_mul_1_r (x : float) : (x * 1)%float = x.
Proof.
  apply Prim2SF_inj. rewrite mul_spec.
  change (Prim2SF 1) with (S754_finite false 4503599627370496 (-52)).
  pose proof (Prim2SF_valid x) as Hv.
  destruct (Prim2SF x) as [s|s| |s m e]; unfold SF64mul; cbn [SFmul].
  - rewrite xorb_false_r. reflexivity.
  - rewrite xorb_false_r. reflexivity.
  - reflexivity.
  - rewrite xorb_false_r. apply SFmul_one. exact Hv.
Qed.

(** ** Doubles: equal values are equal numbers *)

Lemma digits2_pos_log2 (m : positive) :
  Zpos (digits2_pos m) = Z.log2 (Zpos m) + 1.
Proof.
  induction m as [m IH|m IH|]; cbn [digits2_pos].
  - rewrite Pos2Z.inj_succ, IH. 
    change (Z.pos m~1) with (2 * Z.pos m + 1). rewrite Z.log2_succ_double by lia. lia.
  - rewrite Pos2Z.inj_succ, IH.
    change (Z.pos m~0) with (2 * Z.pos m). rewrite Z.log2_double by lia. lia.
  - reflexivity.
Qed.

Lemma Qpower2_pos (e : Z) : (0 < Qpower 2 e)%Q.
Proof. apply Qpower_0_lt. reflexivity. Qed.

Lemma mag_pos (m : positive) (e : Z) : (0 < inject_Z (Zpos m) * Qpower 2 e)%Q.
Proof.
  apply Qmult_lt_0_compat; [reflexivity | apply Qpower2_pos].
Qed.

Lemma scaled_eq (m m' : positive) (e e' : Z) :
  (inject_Z (Zpos m) * Qpower 2 e == inject_Z (Zpos m') * Qpower 2 e')%Q ->
  e <= e' ->
  Zpos m = Zpos m' * 2 ^ (e' - e).
Proof.
  intros H Hle.
  assert (H2 : (Qpower 2 e' == Qpower 2 (e' - e) * Qpower 2 e)%Q).
  { rewrite <- Qpower_plus by discriminate. f_equiv. lia. }
  rewrite H2 in H. rewrite Qmult_assoc in H.
  apply Qmult_inj_r in H;
    [|pose proof (Qpower2_pos e) as P; intros E; rewrite E in P; discriminate P].
  apply inject_Z_injective. rewrite inject_Z_mult.
  rewrite (Zpower_Qpower 2 (e' - e)) by lia. exact H.
Qed.

Lemma canonical_unique (m m' : positive) (e e' : Z) :
  bounded prec emax m e = true ->
  bounded prec emax m' e' = true ->
  (inject_Z (Zpos m) * Qpower 2 e == inject_Z (Zpos m') * Qpower 2 e')%Q ->
  m = m' /\ e = e'.
Proof.
  intros Hb Hb' H.
  unfold bounded, canonical_mantissa in *.
  apply andb_true_iff in Hb. destruct Hb as [Hc _].
  apply andb_true_iff in Hb'. destruct Hb' as [Hc' _].
  apply Z.eqb_eq in Hc. apply Z.eqb_eq in Hc'.
  rewrite digits2_pos_log2 in Hc, Hc'.
  assert (Hsum : Z.log2 (Zpos m) + e = Z.log2 (Zpos m') + e').
  { destruct (Z.le_ge_cases e e') as [Hle|Hle].
    - pose proof (scaled_eq m m' e e' H Hle) as E. rewrite E.
      rewrite Z.log2_mul_pow2 by lia. lia.
    - symmetry in H. pose proof (scaled_eq m' m e' e H Hle) as E. rewrite E.
      rewrite Z.log2_mul_pow2 by lia. lia. }
  assert (He : e = e').
  { rewrite <- Hc, <- Hc'. f_equal. lia. }
  subst e'. split; [|reflexivity].
  pose proof (scaled_eq m m' e e H ltac:(lia)) as E.
  rewrite Z.sub_diag in E. simpl in E. lia.
Qed.

Lemma SFeqb_refl_finite (s : bool) (m : positive) (e : Z) :
  SFeqb (S754_finite s m e) (S754_finite s m e) = true.
Proof.
  unfold SFeqb, SFcompare. rewrite Z.compare_refl.
  change (Pos.compare_cont Eq m m) with (Pos.compare m m). rewrite Pos.compare_refl.
  destruct s; reflexivity.
Qed.

Lemma numValue_eqb (x y : float) (qx qy : Q) :
  numValue x = Some qx -> numValue y = Some qy -> (qx == qy)%Q ->
  (x =? y)%float = true.
Proof.
  unfold numValue. intros Hx Hy Hq. rewrite FloatAxioms.eqb_spec.
  pose proof (Prim2SF_valid x) as Vx. pose proof (Prim2SF_valid y) as Vy.
  destruct (Prim2SF x) as [sx|sx| |sx mx ex]; try discriminate;
    destruct (Prim2SF y) as [sy|sy| |sy my ey]; try discriminate;
    injection Hx as <-; injection Hy as <-.
  - reflexivity.
  - exfalso. pose proof (mag_pos my ey) as P.
    destruct sy; [|rewrite <- Hq in P; discriminate P].
    apply Qopp_lt_compat in P. rewrite <- Hq in P. discriminate P.
  - exfalso. pose proof (mag_pos mx ex) as P.
    destruct sx; [|rewrite Hq in P; discriminate P].
    apply Qopp_lt_compat in P. rewrite Hq in P. discriminate P.
  - pose proof (mag_pos mx ex) as Px. pose proof (mag_pos my ey) as Py.
    cbn [valid_binary] in Vx, Vy.
    destruct sx, sy.
    + assert (E : (inject_Z (Zpos mx) * Qpower 2 ex
                   == inject_Z (Zpos my) * Qpower 2 ey)%Q).
      { rewrite <- (Qopp_involutive (inject_Z (Zpos mx) * _)), Hq.
        apply Qopp_involutive. }
      destruct (canonical_unique mx my ex ey Vx Vy E) as [-> ->].
      apply SFeqb_refl_finite.
    + exfalso. apply Qopp_lt_compat in Px. rewrite Hq in Px.
      apply (Qlt_irrefl 0). eapply Qlt_trans; [exact Py|]. exact Px.
    + exfalso. apply Qopp_lt_compat in Py. rewrite <- Hq in Py.
      apply (Qlt_irrefl 0). eapply Qlt_trans; [exact Px|]. exact Py.
    + destruct (canonical_unique mx my ex ey Vx Vy Hq) as [-> ->].
      apply SFeqb_refl_finite.
Qed.

(** ** Unfolding [getBalanceAtDate] *)

Lemma getBalanceAtDate_fold (host : Host) (s : FinanceState) (target : Date) :
  truthy (initialDate s) = true ->
  getBalanceAtDate host s target
  = fold_left (applyTransaction host target) (transactions s) (initialBalance s).
Proof.
  intros Hset. unfold getBalanceAtDate. rewrite Hset. reflexivity.
Qed.

Lemma getBalanceAtDate_split (host : Host) (s : FinanceState) (target : Date)
    (l r : list Transaction) (t : Transaction) :
  truthy (initialDate s) = true ->
  transactions s = l ++ t :: r ->
  getBalanceAtDate host s target
  = fold_left (applyTransaction host target) r
      (applyTransaction host target
         (fold_left (applyTransaction host target) l (initialBalance s)) t).
Proof.
  intros Hset Htx. rewrite getBalanceAtDate_fold by assumption.
  rewrite Htx, fold_left_app. reflexivity.
Qed.

Lemma date_gt_not_le (a b : Date) : date_gt a b = true -> date_le a b = false.
Proof.
  destruct a as [x|], b as [y|]; simpl; try discriminate.
  intros H. apply Z.ltb_lt in H. apply Z.leb_gt. exact H.
Qed.

Lemma calculateRecurringAmount_none (host : Host) (t : Transaction) (a b : Date) :
  recurrence t = none -> calculateRecurringAmount host t a b = signedAmount t.
Proof. intros H. unfold calculateRecurringAmount. rewrite H. reflexivity. Qed.

Lemma applyTransaction_contribution (host : Host) (target : Date) (b : float)
    (t : Transaction) :
  applyTransaction host target b t = addContribution b (contribution host target t).
Proof.
  unfold applyTransaction, contribution.
  destruct (recurrence t) eqn:Hrec.
  - rewrite calculateRecurringAmount_none by assumption.
    destruct (date_gt _ _) eqn:Hgt.
    + rewrite (date_gt_not_le _ _ Hgt). reflexivity.
    + destruct (date_le _ _); reflexivity.
  - destruct (date_le _ _); reflexivity.
  - destruct (date_le _ _); reflexivity.
Qed.

(** ** The anchor *)

(** C2: a ledger whose [initialDate] is [null] projects 0 at every target
    date, whatever its initial balance and its transactions. *)
Theorem balance_unset_is_zero (host : Host) (s : FinanceState) (target : Date) :
  initialDate s = None ->
  getBalanceAtDate host s target = 0%float.
Proof.
  intros Hnull. unfold getBalanceAtDate. rewrite Hnull. reflexivity.
Qed.

Lemma balance_unset_is_zero_witness :
  initialDate unanchored = None
  /\ initialBalance unanchored = 1000%float
  /\ transactions unanchored = [salaryTx; rentTx]
  /\ getBalanceAtDate (isoHost 0) unanchored (parseISO "2024-03-01") = 0%float.
Proof.
  repeat (split; [reflexivity|]).
  apply (balance_unset_is_zero (isoHost 0) unanchored (parseISO "2024-03-01")).
  reflexivity.
Defined.

(** The test is JavaScript truthiness, so an empty string counts as unset
    as well. *)
Lemma balance_falsy_is_zero (host : Host) (s : FinanceState) (target : Date) :
  truthy (initialDate s) = false -> getBalanceAtDate host s target = 0%float.
Proof. intros H. unfold getBalanceAtDate. rewrite H. reflexivity. Qed.

(** C5: with [initialDate] set and no transactions, the projection is the
    initial balance at every target date: also at one before the anchor
    (and at an Invalid Date). *)
Theorem balance_empty_is_initial (host : Host) (s : FinanceState) (target : Date) :
  truthy (initialDate s) = true ->
  transactions s = [] ->
  getBalanceAtDate host s target = initialBalance s.
Proof.
  intros Hset Htx. rewrite getBalanceAtDate_fold by assumption.
  rewrite Htx. reflexivity.
Qed.

Lemma balance_empty_is_initial_witness :
  truthy (initialDate anchored) = true
  /\ transactions anchored = []
  /\ date_lt (parseISO "2023-06-15") (parseISO "2024-01-01") = true
  /\ getBalanceAtDate (isoHost 0) anchored (parseISO "2023-06-15") = 1000%float.
Proof.
  split; [reflexivity|]. split; [reflexivity|]. split; [reflexivity|].
  apply (balance_empty_is_initial (isoHost 0) anchored (parseISO "2023-06-15"));
    reflexivity.
Defined.

(** ** One-time transactions *)

(** C3: with [initialDate] set, a transaction without recurrence adds its
    signed amount ([amount] for an income, [-amount] for an expense) once,
    when the loop reaches it, if its date is on or before the target; if it
    is not (in particular if it is after the target) the balance is left as
    it was. *)
Theorem onetime_contribution (host : Host) (s : FinanceState) (target : Date)
    (l r : list Transaction) (t : Transaction) :
  truthy (initialDate s) = true ->
  transactions s = l ++ t :: r ->
  recurrence t = none ->
  let d := newDate host (date t) in
  let before := fold_left (applyTransaction host target) l (initialBalance s) in
  let rest := fold_left (applyTransaction host target) r in
  (date_le d target = true ->
   getBalanceAtDate host s target = rest (before + signedAmount t)%float)
  /\ (date_le d target = false ->
      getBalanceAtDate host s target = rest before)
  /\ (date_gt d target = true ->
      getBalanceAtDate host s target = rest before)
  /\ signedAmount t
     = match type t with
       | income => amount t
       | expense => (- amount t)%float
       end.
Proof.
  intros Hset Htx Hrec d before rest.
  assert (Hsplit : getBalanceAtDate host s target
                   = rest (addContribution before (contribution host target t))).
  { rewrite (getBalanceAtDate_split host s target l r t Hset Htx).
    rewrite applyTransaction_contribution. reflexivity. }
  assert (Hno : date_le d target = false ->
                getBalanceAtDate host s target = rest before).
  { intros Hle. rewrite Hsplit. unfold contribution. fold d. rewrite Hle.
    reflexivity. }
  repeat split.
  - intros Hle. rewrite Hsplit. unfold contribution. fold d. rewrite Hle.
    rewrite calculateRecurringAmount_none by assumption. reflexivity.
  - exact Hno.
  - intros Hgt. apply Hno. apply date_gt_not_le. exact Hgt.
Qed.

(** ** Recurring transactions *)

(** C1: with [initialDate] set, a recurring transaction dated on or before
    the target adds its signed amount times the number of elapsed periods
    plus one: months counted as (year difference) * 12 + (month difference)
    on the calendar fields alone, years as the difference of the years.  One
    dated after the target adds nothing, and one whose date is the target
    adds its signed amount, once. *)
Theorem recurring_contribution (host : Host) (s : FinanceState) (target : Date)
    (l r : list Transaction) (t : Transaction) :
  truthy (initialDate s) = true ->
  transactions s = l ++ t :: r ->
  recurrence t <> none ->
  let d := newDate host (date t) in
  let before := fold_left (applyTransaction host target) l (initialBalance s) in
  let rest := fold_left (applyTransaction host target) r in
  (date_le d target = true -> recurrence t = monthly ->
   getBalanceAtDate host s target
   = rest (before
           + signedAmount t
             * toNumber (jsint_add (getMonthsBetween host d target) (Some 1%Z)))%float)
  /\ (date_le d target = true -> recurrence t = yearly ->
      getBalanceAtDate host s target
      = rest (before
              + signedAmount t
                * toNumber (jsint_add (getYearsBetween host d target) (Some 1%Z)))%float)
  /\ (date_gt d target = true ->
      getBalanceAtDate host s target = rest before)
  /\ (d = target -> d <> InvalidDate ->
      getBalanceAtDate host s target = rest (before + signedAmount t)%float)
  /\ (forall ts te : Z,
        getMonthsBetween host (Some ts) (Some te)
        = Some ((YearFromTime (LocalTime host te)
                 - YearFromTime (LocalTime host ts)) * 12
                + (MonthFromTime (LocalTime host te)
                   - MonthFromTime (LocalTime host ts)))
        /\ getYearsBetween host (Some ts) (Some te)
           = Some (YearFromTime (LocalTime host te)
                   - YearFromTime (LocalTime host ts))).
Proof.
  intros Hset Htx Hrec d before rest.
  assert (Hsplit : getBalanceAtDate host s target
                   = rest (addContribution before (contribution host target t))).
  { rewrite (getBalanceAtDate_split host s target l r t Hset Htx).
    rewrite applyTransaction_contribution. reflexivity. }
  split; [|split; [|split; [|split]]].
  - intros Hle Hm. rewrite Hsplit. unfold contribution. fold d. rewrite Hle.
    unfold calculateRecurringAmount. rewrite Hm. reflexivity.
  - intros Hle Hy. rewrite Hsplit. unfold contribution. fold d. rewrite Hle.
    unfold calculateRecurringAmount. rewrite Hy. reflexivity.
  - intros Hgt. rewrite Hsplit. unfold contribution. fold d.
    rewrite (date_gt_not_le _ _ Hgt). reflexivity.
  - intros Heq Hvalid. rewrite Hsplit. unfold contribution. fold d.
    rewrite <- Heq. destruct d as [ts|] eqn:Hd; [|contradiction].
    simpl date_le. rewrite Z.leb_refl.
    unfold calculateRecurringAmount, getMonthsBetween, getYearsBetween.
    simpl. rewrite !Z.sub_diag. simpl.
    destruct (recurrence t); [contradiction| |];
      change (Z2F 1) with 1%float; rewrite float_mul_1_r; reflexivity.
  - intros ts te. split; reflexivity.
Qed.

Lemma scenario_transactions : transactions scenario = [salaryTx; rentTx].
Proof. reflexivity. Qed.

Lemma onetime_contribution_witness :
  truthy (initialDate scenario) = true
  /\ transactions scenario = [] ++ salaryTx :: [rentTx]
  /\ recurrence salaryTx = none
  /\ date_le (parseISO "2024-02-01") (parseISO "2024-02-01") = true
  /\ getBalanceAtDate (isoHost 0) scenario (parseISO "2024-02-01")
     = fold_left (applyTransaction (isoHost 0) (parseISO "2024-02-01")) [rentTx]
         (1000 + 500)%float.
Proof.
  split; [reflexivity|]. split; [reflexivity|]. split; [reflexivity|].
  split; [reflexivity|].
  apply (proj1 (onetime_contribution (isoHost 0) scenario (parseISO "2024-02-01")
                  [] [rentTx] salaryTx eq_refl eq_refl eq_refl)).
  reflexivity.
Defined.

Lemma recurring_contribution_witness :
  truthy (initialDate scenario) = true
  /\ transactions scenario = [salaryTx] ++ rentTx :: []
  /\ recurrence rentTx <> none
  /\ date_le (parseISO "2024-01-01") (parseISO "2024-03-01") = true
  /\ getMonthsBetween (isoHost 0) (parseISO "2024-01-01") (parseISO "2024-03-01")
     = Some 2
  /\ getBalanceAtDate (isoHost 0) scenario (parseISO "2024-03-01")
     = (1000 + 500 + - (200) * 3)%float.
Proof.
  assert (Hrec : recurrence rentTx <> none) by discriminate.
  split; [reflexivity|]. split; [reflexivity|]. split; [exact Hrec|].
  split; [reflexivity|]. split; [reflexivity|].
  apply (proj1 (recurring_contribution (isoHost 0) scenario (parseISO "2024-03-01")
                  [salaryTx] [] rentTx eq_refl eq_refl Hrec));
    reflexivity.
Defined.

(** The spec's worked examples of the period count. *)
Example months_jan15_apr01 :
  getMonthsBetween (isoHost 0) (parseISO "2024-01-15") (parseISO "2024-04-01")
  = Some 3.
Proof. reflexivity. Qed.

Example years_2020_2023 :
  getYearsBetween (isoHost 0) (parseISO "2020-06-01") (parseISO "2023-06-01")
  = Some 3.
Proof. reflexivity. Qed.

Example months_jan31_feb01 :
  getMonthsBetween (isoHost 0) (parseISO "2024-01-31") (parseISO "2024-02-01")
  = Some 1.
Proof. reflexivity. Qed.

(** C10: a transaction dated before [initialDate] is added like any other
    when its date is on or before the target: the loop tests a date against
    the target only, and the projection is the same for every (set) value
    of [initialDate]. *)
Theorem before_anchor_contributes (host : Host) (s : FinanceState) (target : Date)
    (l r : list Transaction) (t : Transaction) (anchor : string) :
  initialDate s = Some anchor ->
  truthy (Some anchor) = true ->
  transactions s = l ++ t :: r ->
  date_lt (newDate host (date t)) (newDate host anchor) = true ->
  date_le (newDate host (date t)) target = true ->
  getBalanceAtDate host s target
  = fold_left (applyTransaction host target) r
      (fold_left (applyTransaction host target) l (initialBalance s)
       + calculateRecurringAmount host t (newDate host (date t)) target)%float
  /\ (recurrence t = none ->
      calculateRecurringAmount host t (newDate host (date t)) target
      = signedAmount t)
  /\ (forall anchor' : string,
        truthy (Some anchor') = true ->
        getBalanceAtDate host
          {| initialBalance := initialBalance s; initialDate := Some anchor';
             transactions := transactions s; targetDate := targetDate s |} target
        = getBalanceAtDate host s target).
Proof.
  intros Hanchor Hset Htx _ Hle.
  assert (Hset' : truthy (initialDate s) = true) by (rewrite Hanchor; exact Hset).
  split; [|split].
  - rewrite (getBalanceAtDate_split host s target l r t Hset' Htx).
    rewrite applyTransaction_contribution. unfold contribution.
    rewrite Hle. reflexivity.
  - apply calculateRecurringAmount_none.
  - intros anchor' Hset2.
    rewrite !getBalanceAtDate_fold by assumption. reflexivity.
Qed.

Lemma before_anchor_contributes_witness :
  initialDate earlyLedger = Some "2024-01-01"%string
  /\ truthy (Some "2024-01-01"%string) = true
  /\ transactions earlyLedger = [] ++ earlyTx :: []
  /\ date_lt (parseISO "2023-11-20") (parseISO "2024-01-01") = true
  /\ date_le (parseISO "2023-11-20") (parseISO "2023-12-01") = true
  /\ getBalanceAtDate (isoHost 0) earlyLedger (parseISO "2023-12-01")
     = (1000 + 50)%float.
Proof.
  repeat (split; [reflexivity|]).
  apply (proj1 (before_anchor_contributes (isoHost 0) earlyLedger
                  (parseISO "2023-12-01") [] [] earlyTx "2024-01-01"
                  eq_refl eq_refl eq_refl eq_refl eq_refl)).
Defined.

(** ** Deletion *)

Lemma filter_keeps_all {A : Type} (f : A -> bool) (l : list A) :
  (forall x, In x l -> f x = true) -> List.filter f l = l.
Proof.
  induction l as [|a l IH]; intros H; simpl.
  - reflexivity.
  - rewrite (H a) by (left; reflexivity).
    rewrite IH; [reflexivity|]. intros x Hx. apply H. right. exact Hx.
Qed.

(** C7: deleting an id that no transaction of the ledger has returns the
    ledger as it was, field by field; [deleteTransaction] is a total function
    and has no failing case. *)
Theorem delete_unknown_id (s : FinanceState) (i : string) :
  (forall t, In t (transactions s) -> id t <> i) ->
  deleteTransaction s i = s.
Proof.
  intros Hno. destruct s as [b d txs tg]. unfold deleteTransaction. simpl in *.
  f_equal. apply filter_keeps_all. intros t Ht.
  apply negb_true_iff. apply String.eqb_neq. apply Hno. exact Ht.
Qed.

Lemma delete_unknown_id_witness :
  (forall t, In t (transactions scenario) -> id t <> "missing"%string)
  /\ deleteTransaction scenario "missing" = scenario.
Proof.
  assert (H : forall t, In t (transactions scenario) -> id t <> "missing"%string).
  { intros t [<-|[<-|[]]]; vm_compute; discriminate. }
  split; [exact H|]. apply (delete_unknown_id scenario "missing" H).
Defined.

(** ** The worked scenario, in every time zone *)

(** The local calendar day of a UTC midnight is that day east of Greenwich
    and the day before west of it. *)
Lemma Day_midnight (t tz : Z) :
  t mod msPerDay = 0 ->
  - msPerDay < tz < msPerDay ->
  Day (t + tz) = Day (t + (if tz <? 0 then -1 else 0)).
Proof.
  unfold Day, msPerDay. intros Hmid Htz.
  destruct (tz <? 0) eqn:Hneg;
    [apply Z.ltb_lt in Hneg | apply Z.ltb_ge in Hneg];
    Z.div_mod_to_equations; lia.
Qed.

Lemma calendar_midnight (t tz : Z) :
  t mod msPerDay = 0 ->
  - msPerDay < tz < msPerDay ->
  getFullYear (isoHost tz) (Some t)
  = getFullYear (isoHost (if tz <? 0 then -1 else 0)) (Some t)
  /\ getMonth (isoHost tz) (Some t)
     = getMonth (isoHost (if tz <? 0 then -1 else 0)) (Some t).
Proof.
  intros Hmid Htz.
  unfold getFullYear, getMonth, MonthFromTime, DayWithinYear, InLeapYear,
    YearFromTime, LocalTime.
  simpl LocalTZA. rewrite (Day_midnight t tz Hmid Htz).
  split; reflexivity.
Qed.

Lemma applyTransaction_midnight (tz a e : Z) (b : float) (t : Transaction) :
  - msPerDay < tz < msPerDay ->
  parseISO (date t) = Some a ->
  a mod msPerDay = 0 ->
  e mod msPerDay = 0 ->
  applyTransaction (isoHost tz) (Some e) b t
  = applyTransaction (isoHost (if tz <? 0 then -1 else 0)) (Some e) b t.
Proof.
  intros Htz Hparse Ha He.
  unfold applyTransaction, calculateRecurringAmount, getMonthsBetween,
    getYearsBetween, newDate.
  simpl DateParse. rewrite Hparse.
  destruct (calendar_midnight a tz Ha Htz) as [-> ->].
  destruct (calendar_midnight e tz He Htz) as [-> ->].
  reflexivity.
Qed.

(** C4: initial balance 1000 on 2024-01-01, an income of 500 on 2024-02-01
    and a monthly expense of 200 from 2024-01-01 project to
    1000 + 500 - 200 * 3 = 900 on 2024-03-01, in any time zone. *)
Theorem scenario_balance (tz : Z) :
  - msPerDay < tz < msPerDay ->
  getBalanceAtDate (isoHost tz) scenario (newDate (isoHost tz) "2024-03-01")
  = 900%float
  /\ (1000 + 500 - 200 * 3)%float = 900%float.
Proof.
  intros Htz. split; [|reflexivity].
  rewrite getBalanceAtDate_fold by reflexivity.
  rewrite scenario_transactions.
  change (newDate (isoHost tz) "2024-03-01") with (Some 1709251200000).
  simpl fold_left.
  rewrite (applyTransaction_midnight tz 1706745600000 1709251200000 _ salaryTx)
    by (try exact Htz; reflexivity).
  rewrite (applyTransaction_midnight tz 1704067200000 1709251200000 _ rentTx)
    by (try exact Htz; reflexivity).
  destruct (tz <? 0); vm_compute; reflexivity.
Qed.

Lemma scenario_balance_witness :
  - msPerDay < 25200000 < msPerDay
  /\ getBalanceAtDate (isoHost 25200000) scenario
       (newDate (isoHost 25200000) "2024-03-01") = 900%float.
Proof.
  assert (H : - msPerDay < 25200000 < msPerDay) by (unfold msPerDay; lia).
  split; [exact H|]. apply (proj1 (scenario_balance 25200000 H)).
Defined.

(** ** The order of the transactions *)

Lemma fold_contributions (host : Host) (target : Date) (l : list Transaction)
    (b : float) :
  fold_left (applyTransaction host target) l b
  = fold_left PrimFloat.add (omap (contribution host target) l) b.
Proof.
  revert b. induction l as [|t l IH]; intros b; simpl.
  - reflexivity.
  - rewrite applyTransaction_contribution, IH.
    destruct (contribution host target t); reflexivity.
Qed.

Lemma omap_perm {A B : Type} (f : A -> option B) (l l' : list A) :
  Permutation l l' -> Permutation (omap f l) (omap f l').
Proof.
  induction 1 as [|x l l' _ IH|x y l|l l' l'' _ IH1 _ IH2]; simpl.
  - constructor.
  - destruct (f x); [constructor|]; exact IH.
  - destruct (f x), (f y); try reflexivity. constructor.
  - etransitivity; eassumption.
Qed.

Lemma exactAdd_value (a b : float) :
  exactAdd a b = true ->
  exists x y z : Q,
    numValue a = Some x /\ numValue b = Some y /\ numValue (a + b) = Some z
    /\ (z == x + y)%Q.
Proof.
  unfold exactAdd. intros H.
  destruct (numValue a) as [x|]; [|discriminate].
  destruct (numValue b) as [y|]; [|discriminate].
  destruct (numValue (a + b)) as [z|]; [|discriminate].
  exists x, y, z. repeat split. apply Qeq_bool_iff. exact H.
Qed.

Lemma exactSum_value (xs : list float) :
  forall b : float,
    exactSum b xs = true ->
    exists qb q : Q,
      numValue b = Some qb
      /\ numValue (fold_left PrimFloat.add xs b) = Some q
      /\ (q == qb + sumQ xs)%Q.
Proof.
  induction xs as [|x xs IH]; intros b H; simpl in *.
  - destruct (numValue b) as [qb|] eqn:Hb; [|discriminate].
    exists qb, qb. repeat split. ring.
  - apply andb_true_iff in H. destruct H as [Hadd Hrest].
    destruct (exactAdd_value b x Hadd) as (qb & qx & z & Hb & Hx & Hz & Hzv).
    destruct (IH _ Hrest) as (qz & q & Hz' & Hq & Hqv).
    rewrite Hz in Hz'. injection Hz' as <-.
    exists qb, q. repeat split; [exact Hb | exact Hq |].
    unfold valueOr0. rewrite Hx. rewrite Hqv, Hzv. ring.
Qed.

Lemma sumQ_perm (xs ys : list float) :
  Permutation xs ys -> (sumQ xs == sumQ ys)%Q.
Proof.
  induction 1 as [|x l l' _ IH|x y l|l l' l'' _ IH1 _ IH2]; simpl.
  - reflexivity.
  - rewrite IH. reflexivity.
  - ring.
  - rewrite IH1. exact IH2.
Qed.

(** C8, as stated, fails: 0.1 + 0.2 + 0.3 summed from the left is
    0.6000000000000001 and 0.3 + 0.2 + 0.1 is 0.6, so the two orders of the
    same three incomes project to different balances. *)
Lemma order_changes_balance :
  truthy (initialDate decimals) = true
  /\ initialBalance decimalsReversed = initialBalance decimals
  /\ initialDate decimalsReversed = initialDate decimals
  /\ Permutation (transactions decimals) (transactions decimalsReversed)
  /\ getBalanceAtDate (isoHost 0) decimals (parseISO "2024-01-01")
     = 0.6000000000000001%float
  /\ getBalanceAtDate (isoHost 0) decimalsReversed (parseISO "2024-01-01")
     = 0.6%float
  /\ PrimFloat.eqb
       (getBalanceAtDate (isoHost 0) decimals (parseISO "2024-01-01"))
       (getBalanceAtDate (isoHost 0) decimalsReversed (parseISO "2024-01-01"))
     = false
  /\ getBalanceAtDate (isoHost 0) decimals (parseISO "2024-01-01")
     <> getBalanceAtDate (isoHost 0) decimalsReversed (parseISO "2024-01-01").
Proof.
  repeat (split; [reflexivity|]).
  split.
  { simpl. eapply perm_trans; [apply perm_skip, perm_swap|].
    eapply perm_trans; [apply perm_swap|]. apply perm_skip, perm_swap. }
  split; [vm_compute; reflexivity|]. split; [vm_compute; reflexivity|].
  split; [vm_compute; reflexivity|].
  intros H. apply (f_equal Prim2SF) in H. vm_compute in H. discriminate H.
Qed.

(** C8, amended: a permuted ledger adds the same contributions to the same
    initial balance, in the permuted order; each projection is the
    left-to-right floating-point sum of its list.  When no addition of
    either running sum rounds, the two projections are equal numbers
    ([PrimFloat.eqb] is the equality of IEEE 754, JavaScript's [===]). *)
Theorem permutation_same_contributions (host : Host) (s : FinanceState)
    (target : Date) (txs' : list Transaction) :
  truthy (initialDate s) = true ->
  Permutation (transactions s) txs' ->
  let s' := {| initialBalance := initialBalance s; initialDate := initialDate s;
               transactions := txs'; targetDate := targetDate s |} in
  let cs := omap (contribution host target) (transactions s) in
  let cs' := omap (contribution host target) txs' in
  getBalanceAtDate host s target = fold_left PrimFloat.add cs (initialBalance s)
  /\ getBalanceAtDate host s' target
     = fold_left PrimFloat.add cs' (initialBalance s)
  /\ Permutation cs cs'
  /\ (exactSum (initialBalance s) cs = true ->
      exactSum (initialBalance s) cs' = true ->
      PrimFloat.eqb (getBalanceAtDate host s target)
                    (getBalanceAtDate host s' target) = true).
Proof.
  intros Hset Hperm s' cs cs'.
  assert (H1 : getBalanceAtDate host s target
               = fold_left PrimFloat.add cs (initialBalance s)).
  { rewrite getBalanceAtDate_fold by assumption. apply fold_contributions. }
  assert (H2 : getBalanceAtDate host s' target
               = fold_left PrimFloat.add cs' (initialBalance s)).
  { rewrite getBalanceAtDate_fold by assumption. apply fold_contributions. }
  assert (Hcs : Permutation cs cs') by (apply omap_perm; exact Hperm).
  repeat split; try assumption.
  intros He He'. rewrite H1, H2.
  destruct (exactSum_value cs _ He) as (qb & q & Hb & Hq & Hqv).
  destruct (exactSum_value cs' _ He') as (qb' & q' & Hb' & Hq' & Hqv').
  rewrite Hb in Hb'. injection Hb' as <-.
  apply (numValue_eqb _ _ q q' Hq Hq').
  rewrite Hqv, Hqv', (sumQ_perm cs cs' Hcs). reflexivity.
Qed.

Lemma permutation_same_contributions_witness :
  truthy (initialDate scenario) = true
  /\ Permutation (transactions scenario) [rentTx; salaryTx]
  /\ Permutation
       (omap (contribution (isoHost 0) (parseISO "2024-03-01"))
             (transactions scenario))
       (omap (contribution (isoHost 0) (parseISO "2024-03-01"))
             [rentTx; salaryTx])
  /\ PrimFloat.eqb
       (getBalanceAtDate (isoHost 0) scenario (parseISO "2024-03-01"))
       (getBalanceAtDate (isoHost 0)
          {| initialBalance := initialBalance scenario;
             initialDate := initialDate scenario;
             transactions := [rentTx; salaryTx];
             targetDate := targetDate scenario |}
          (parseISO "2024-03-01"))
     = true.
Proof.
  assert (Hperm : Permutation (transactions scenario) [rentTx; salaryTx])
    by apply perm_swap.
  pose proof (permutation_same_contributions (isoHost 0) scenario
                (parseISO "2024-03-01") [rentTx; salaryTx] eq_refl Hperm)
    as (_ & _ & Hcs & Hexact).
  split; [reflexivity|]. split; [exact Hperm|]. split; [exact Hcs|].
  apply Hexact; vm_compute; reflexivity.
Defined.

(** ** Identifiers *)

Lemma NoDup_map_filter {A B : Type} (f : A -> B) (p : A -> bool) (l : list A) :
  NoDup (map f l) -> NoDup (map f (List.filter p l)).
Proof.
  induction l as [|a l IH]; simpl; intros H.
  - constructor.
  - apply NoDup_cons in H. destruct H as [Hnot Hl].
    destruct (p a); simpl; [|apply IH; exact Hl].
    apply NoDup_cons. split; [|apply IH; exact Hl].
    intros Hin. apply Hnot. apply list_elem_of_In in Hin. apply list_elem_of_In.
    apply in_map_iff in Hin. destruct Hin as (x & Hx & Hxin).
    apply in_map_iff. exists x. split; [exact Hx|].
    apply filter_In in Hxin. apply Hxin.
Qed.

(** *** Reading an id back *)

Lemma val36_digit36 (d : Z) : 0 <= d < 36 -> val36 (digit36 d) = d.
Proof.
  intros H.
  assert (Hc : d = 0 \/ d = 1 \/ d = 2 \/ d = 3 \/ d = 4 \/ d = 5 \/ d = 6
               \/ d = 7 \/ d = 8 \/ d = 9 \/ d = 10 \/ d = 11 \/ d = 12
               \/ d = 13 \/ d = 14 \/ d = 15 \/ d = 16 \/ d = 17 \/ d = 18
               \/ d = 19 \/ d = 20 \/ d = 21 \/ d = 22 \/ d = 23 \/ d = 24
               \/ d = 25 \/ d = 26 \/ d = 27 \/ d = 28 \/ d = 29 \/ d = 30
               \/ d = 31 \/ d = 32 \/ d = 33 \/ d = 34 \/ d = 35) by lia.
  repeat (destruct Hc as [-> | Hc]; [reflexivity|]). subst d. reflexivity.
Qed.

Lemma from36_toString36_go (fuel : nat) :
  forall (n : Z) (acc : string),
    0 <= n < 36 ^ Z.of_nat fuel ->
    from36 0 (toString36_go fuel n acc) = from36 n acc.
Proof.
  induction fuel as [|fuel IH]; intros n acc Hn.
  - simpl in *. replace n with 0 by lia. reflexivity.
  - cbn [toString36_go].
    assert (Hmod : 0 <= n mod 36 < 36) by (apply Z.mod_pos_bound; lia).
    assert (Hdiv : n = 36 * (n / 36) + n mod 36) by (apply Z.div_mod; lia).
    destruct (Z.eqb_spec (n / 36) 0) as [Hz|Hz].
    + cbn [from36]. rewrite val36_digit36 by exact Hmod.
      f_equal. lia.
    + rewrite IH.
      * cbn [from36]. rewrite val36_digit36 by exact Hmod. f_equal. lia.
      * rewrite Nat2Z.inj_succ, Z.pow_succ_r in Hn by lia.
        split; [apply Z.div_pos; lia|].
        apply Z.div_lt_upper_bound; lia.
Qed.

Lemma from36_toString36 (n : Z) : 0 <= n -> from36 0 (toString36 n) = n.
Proof.
  intros Hn. unfold toString36. rewrite from36_toString36_go; [reflexivity|].
  split; [exact Hn|].
  rewrite Nat2Z.inj_succ, Z2Nat.id by apply Z.log2_nonneg.
  destruct (Z.eq_dec n 0) as [->|Hpos]; [reflexivity|].
  pose proof (Z.log2_spec n ltac:(lia)) as [_ Hlt].
  eapply Z.lt_le_trans; [exact Hlt|].
  apply Z.pow_le_mono_l. lia.
Qed.

Lemma string_app_inv (a a' b b' : string) :
  String.length a = String.length a' ->
  (a ++ b)%string = (a' ++ b')%string ->
  a = a' /\ b = b'.
Proof.
  revert a'. induction a as [|c a IH]; intros [|c' a'] Hlen Heq;
    simpl in *; try discriminate.
  - split; [reflexivity | exact Heq].
  - injection Heq as -> Heq. injection Hlen as Hlen.
    destruct (IH a' Hlen Heq) as [-> ->]. split; reflexivity.
Qed.

Lemma string_length_app (a b : string) :
  String.length (a ++ b) = (String.length a + String.length b)%nat.
Proof. induction a as [|c a IH]; simpl; [reflexivity | rewrite IH; reflexivity]. Qed.

Lemma toString36_go_length (k : nat) :
  forall (fuel : nat) (n : Z) (acc : string),
    (k < fuel)%nat ->
    36 ^ Z.of_nat k <= n < 36 ^ (Z.of_nat k + 1) ->
    String.length (toString36_go fuel n acc) = (S k + String.length acc)%nat.
Proof.
  induction k as [|k IH]; intros [|fuel] n acc Hfuel Hn; try lia;
    cbn [toString36_go].
  - change (36 ^ Z.of_nat 0) with 1 in Hn. change (36 ^ (Z.of_nat 0 + 1)) with 36 in Hn.
    replace (n / 36 =? 0) with true
      by (symmetry; apply Z.eqb_eq, Z.div_small; lia).
    reflexivity.
  - rewrite Nat2Z.inj_succ in Hn.
    replace (Z.succ (Z.of_nat k)) with (Z.of_nat k + 1) in Hn by lia.
    rewrite !Z.pow_add_r in Hn by lia. change (36 ^ 1) with 36 in Hn.
    assert (Hpos : 0 < 36 ^ Z.of_nat k) by (apply Z.pow_pos_nonneg; lia).
    assert (Hq : 36 ^ Z.of_nat k <= n / 36 < 36 ^ (Z.of_nat k + 1)).
    { rewrite Z.pow_add_r by lia. change (36 ^ 1) with 36.
      split; [apply Z.div_le_lower_bound; lia | apply Z.div_lt_upper_bound; lia]. }
    replace (n / 36 =? 0) with false by (symmetry; apply Z.eqb_neq; lia).
    rewrite IH by (try exact Hq; lia). simpl. lia.
Qed.

(** A clock reading from 1972 to 2059 has eight digits in base 36. *)
Lemma toString36_eightDigits (now : Z) :
  eightDigits now -> String.length (toString36 now) = 8%nat.
Proof.
  unfold eightDigits. intros Hn. unfold toString36.
  apply (toString36_go_length 7); [|exact Hn].
  assert (H : 36 <= Z.log2 now).
  { change 36 with (Z.log2 (36 ^ 7)). apply Z.log2_le_mono. lia. }
  lia.
Qed.

(** Two draws with eight-digit clock readings make the same id only if they
    are the same draw. *)
Lemma idOf_inj (d d' : string * Z) :
  eightDigits (snd d) -> eightDigits (snd d') -> idOf d = idOf d' -> d = d'.
Proof.
  destruct d as [r n], d' as [r' n']. unfold idOf. simpl. intros Hn Hn' Heq.
  assert (Hlen : String.length r = String.length r').
  { apply (f_equal String.length) in Heq.
    rewrite !string_length_app, !toString36_eightDigits in Heq by assumption.
    lia. }
  destruct (string_app_inv _ _ _ _ Hlen Heq) as [-> Hc].
  f_equal. unfold eightDigits in *.
  rewrite <- (from36_toString36 n), <- (from36_toString36 n'), Hc by lia.
  reflexivity.
Qed.

Lemma NoDup_idOf (ds : list (string * Z)) :
  Forall (fun d => eightDigits (snd d)) ds ->
  NoDup ds -> NoDup (map idOf ds).
Proof.
  induction ds as [|d ds IH]; intros Hall Hnd; simpl; [constructor|].
  apply Forall_cons in Hall. destruct Hall as [Hd Hall].
  apply NoDup_cons in Hnd. destruct Hnd as [Hnot Hnd].
  apply NoDup_cons. split; [|apply IH; assumption].
  intros Hin. apply Hnot. apply list_elem_of_In in Hin.
  apply in_map_iff in Hin. destruct Hin as (d' & Heq & Hin').
  rewrite Forall_forall in Hall.
  apply list_elem_of_In in Hin'.
  rewrite (idOf_inj d d' Hd (Hall d' Hin') (eq_sym Heq)). exact Hin'.
Qed.

(** The ids of a ledger after more calls are among its ids and those of the
    draws, in that order. *)
Lemma NoDup_ids_perform (calls : list Call) :
  forall s : FinanceState,
    NoDup (map id (transactions s) ++ map idOf (draws calls)) ->
    NoDup (map id (transactions (fold_left perform calls s))).
Proof.
  induction calls as [|c calls IH]; intros s Hnd.
  - simpl in *. rewrite app_nil_r in Hnd. exact Hnd.
  - destruct c as [draft rnd now|i|b d|d|]; cbn [fold_left perform draws] in *;
      apply IH.
    + cbn [addTransaction transactions]. rewrite map_app, <- app_assoc.
      exact Hnd.
    + cbn [deleteTransaction transactions].
      apply NoDup_app in Hnd. destruct Hnd as (Hl & Hdisj & Hk).
      apply NoDup_app. split; [apply NoDup_map_filter; exact Hl|].
      split; [|exact Hk].
      intros x Hx. apply Hdisj. apply list_elem_of_In in Hx.
      apply list_elem_of_In. apply in_map_iff in Hx.
      destruct Hx as (t & Ht & Hin). apply in_map_iff. exists t.
      split; [exact Ht|]. apply filter_In in Hin. apply Hin.
    + exact Hnd.
    + exact Hnd.
    + cbn [clearAllData transactions map app].
      apply NoDup_app in Hnd. apply Hnd.
Qed.

(** C9, as stated, fails: [addTransaction] takes the id from [generateId]
    without looking at the ledger.  When [Math.random()] returns 0.5 to two
    additions made in the same millisecond, both transactions get the id
    [ilt7w16o0]. *)
Lemma generated_ids_can_collide :
  Forall (fun d => eightDigits (snd d)) (draws collidedCalls)
  /\ generateId "0.i" 1709251200000 = "ilt7w16o0"%string
  /\ map id (transactions (run collidedCalls))
     = ["ilt7w16o0"; "ilt7w16o0"]%string
  /\ ~ NoDup (map id (transactions (run collidedCalls))).
Proof.
  split; [repeat constructor; vm_compute; discriminate|].
  split; [vm_compute; reflexivity|]. split; [vm_compute; reflexivity|].
  intros H. apply NoDup_cons in H. destruct H as [Hnot _].
  apply Hnot. vm_compute. left.
Qed.

(** C9, amended: [addTransaction] gives the draft the id [generateId] returns
    (the random digits followed by the clock in base 36) and appends it,
    without comparing it with the ids in the ledger.  From the empty ledger,
    after any sequence of additions, deletions, anchor and target changes
    and resets in which every addition read an eight-digit clock (1972 to
    2059) and no two additions drew both the same random digits and the
    same clock reading, no two transactions share an id. *)
Theorem ids_unique_when_draws_differ (calls : list Call) :
  Forall (fun d => eightDigits (snd d)) (draws calls) ->
  NoDup (draws calls) ->
  NoDup (map id (transactions (run calls)))
  /\ (forall (s : FinanceState) (draft : TransactionDraft) (rnd : string)
             (now : Z),
        map id (transactions (addTransaction s draft rnd now))
        = map id (transactions s)
          ++ [(substring_from 2 rnd ++ toString36 now)%string]).
Proof.
  intros Hclock Hdraws. split.
  - unfold run. apply NoDup_ids_perform. simpl.
    apply NoDup_idOf; assumption.
  - intros s draft rnd now. simpl. rewrite map_app. reflexivity.
Qed.

Lemma ids_unique_when_draws_differ_witness :
  Forall (fun d => eightDigits (snd d)) (draws distinctCalls)
  /\ NoDup (draws distinctCalls)
  /\ map id (transactions (run distinctCalls))
     = ["ilt7w16o0"; "ilt7w16o1"]%string
  /\ NoDup (map id (transactions (run distinctCalls))).
Proof.
  assert (Hclock : Forall (fun d => eightDigits (snd d)) (draws distinctCalls)).
  { repeat constructor; vm_compute; discriminate. }
  assert (Hdraws : NoDup (draws distinctCalls)).
  { simpl. repeat (apply NoDup_cons; split); try apply NoDup_nil_2;
      intros Hin;
      repeat (apply elem_of_cons in Hin; destruct Hin as [Hin|Hin];
              [discriminate Hin|]);
      apply elem_of_nil in Hin; exact Hin. }
  split; [exact Hclock|]. split; [exact Hdraws|].
  split; [vm_compute; reflexivity|].
  apply (proj1 (ids_unique_when_draws_differ distinctCalls Hclock Hdraws)).
Defined.

(** ** The charts screen *)

Lemma monthlyData_rentLedger :
  Charts.monthlyData (isoHost 0) (parseISO "2023-01-01") (transactions rentLedger)
  = {[ "2024-01"%string :=
         {| Charts.income := 0; Charts.expense := 200; Charts.balance := -200 |} ]}.
Proof. vm_compute. reflexivity. Qed.

Lemma monthlyStep_other (host : Host) (acc : gmap string Charts.MonthBucket)
    (t : Transaction) (k : string) :
  k <> Charts.monthKey host (newDate host (date t)) ->
  Charts.monthlyStep host acc t !! k = acc !! k.
Proof.
  intros Hk. unfold Charts.monthlyStep. apply lookup_insert_ne. congruence.
Qed.

Lemma monthlyStep_same (host : Host) (acc acc' : gmap string Charts.MonthBucket)
    (t : Transaction) (k : string) :
  acc !! k = acc' !! k ->
  Charts.monthKey host (newDate host (date t)) = k ->
  Charts.monthlyStep host acc t !! k = Charts.monthlyStep host acc' t !! k.
Proof.
  intros Hacc <-. unfold Charts.monthlyStep.
  rewrite !lookup_insert_eq, Hacc. reflexivity.
Qed.

(** The bucket of a month is computed from the transactions of that month
    alone. *)
Lemma fold_monthlyStep_month (host : Host) (k : string) (l : list Transaction) :
  forall acc acc' : gmap string Charts.MonthBucket,
    acc !! k = acc' !! k ->
    fold_left (Charts.monthlyStep host) l acc !! k
    = fold_left (Charts.monthlyStep host)
        (List.filter
           (fun t => String.eqb (Charts.monthKey host (newDate host (date t))) k) l)
        acc' !! k.
Proof.
  induction l as [|t l IH]; intros acc acc' Hacc; simpl.
  - exact Hacc.
  - destruct (String.eqb_spec (Charts.monthKey host (newDate host (date t))) k)
      as [Hk|Hk]; simpl.
    + apply IH. apply monthlyStep_same; assumption.
    + apply IH. rewrite monthlyStep_other by congruence. exact Hacc.
Qed.

Lemma filter_swap {A : Type} (f g : A -> bool) (l : list A) :
  List.filter f (List.filter g l) = List.filter g (List.filter f l).
Proof.
  induction l as [|a l IH]; simpl; [reflexivity|].
  destruct (g a) eqn:Hg, (f a) eqn:Hf; simpl; rewrite ?Hg, ?Hf, IH; reflexivity.
Qed.

Lemma fold_monthlyStep_recurrence (host : Host) (cutoff : Date)
    (f : Transaction -> RecurrenceType) (l : list Transaction) :
  forall acc : gmap string Charts.MonthBucket,
    fold_left (Charts.monthlyStep host)
      (Charts.filteredTransactions host cutoff
         (map (fun t => withRecurrence t (f t)) l)) acc
    = fold_left (Charts.monthlyStep host)
        (Charts.filteredTransactions host cutoff l) acc.
Proof.
  unfold Charts.filteredTransactions.
  induction l as [|t l IH]; intros acc; simpl; [reflexivity|].
  destruct (date_ge (newDate host (date t)) cutoff); simpl.
  - rewrite IH. reflexivity.
  - apply IH.
Qed.

(** C6: the chart's [monthlyData] puts a transaction that passes its
    time-range filter into the bucket of the month of its own date and
    nowhere else, adding its amount to that bucket's income or expense, and
    never reads its recurrence: a bucket is computed from the transactions
    of its month alone, and changing recurrences changes nothing.  So the
    monthly rent of [rentLedger], which the projection to 2024-03-01 counts
    three times, appears once, under 2024-01; there is no bucket for 2024-02
    or 2024-03, and the monthly balances add up to -200 where the projection
    has moved by -600. *)
Theorem chart_ignores_recurrence :
  (forall (host : Host) (acc : gmap string Charts.MonthBucket) (t : Transaction),
      (forall k : string,
          k <> Charts.monthKey host (newDate host (date t)) ->
          Charts.monthlyStep host acc t !! k = acc !! k)
      /\ (forall r : RecurrenceType,
             Charts.monthlyStep host acc (withRecurrence t r)
             = Charts.monthlyStep host acc t)
      /\ (exists b : Charts.MonthBucket,
             Charts.monthlyStep host acc t
               !! Charts.monthKey host (newDate host (date t)) = Some b
             /\ match acc !! Charts.monthKey host (newDate host (date t)) with
                | Some old =>
                    match type t with
                    | income =>
                        Charts.income b = (Charts.income old + amount t)%float
                        /\ Charts.expense b = Charts.expense old
                    | expense =>
                        Charts.income b = Charts.income old
                        /\ Charts.expense b = (Charts.expense old + amount t)%float
                    end
                | None =>
                    match type t with
                    | income =>
                        Charts.income b = (0 + amount t)%float
                        /\ Charts.expense b = 0%float
                    | expense =>
                        Charts.income b = 0%float
                        /\ Charts.expense b = (0 + amount t)%float
                    end
                end
             /\ Charts.balance b = (Charts.income b - Charts.expense b)%float))
  /\ (forall (host : Host) (cutoff : Date) (txs : list Transaction) (k : string),
        Charts.monthlyData host cutoff txs !! k
        = Charts.monthlyData host cutoff
            (List.filter
               (fun t => String.eqb (Charts.monthKey host (newDate host (date t))) k)
               txs) !! k)
  /\ (forall (host : Host) (cutoff : Date) (txs : list Transaction)
             (f : Transaction -> RecurrenceType),
        Charts.monthlyData host cutoff (map (fun t => withRecurrence t (f t)) txs)
        = Charts.monthlyData host cutoff txs)
  /\ (transactions rentLedger = [rentTx]
      /\ recurrence rentTx = monthly
      /\ getBalanceAtDate (isoHost 0) rentLedger (parseISO "2024-03-01")
         = (initialBalance rentLedger + - (200) * 3)%float
      /\ Charts.monthlyData (isoHost 0) (parseISO "2023-01-01")
           (transactions rentLedger)
         = {[ "2024-01"%string :=
                {| Charts.income := 0; Charts.expense := 200;
                   Charts.balance := -200 |} ]}
      /\ Charts.monthlyData (isoHost 0) (parseISO "2023-01-01")
           (transactions rentLedger) !! "2024-02"%string = None
      /\ Charts.monthlyData (isoHost 0) (parseISO "2023-01-01")
           (transactions rentLedger) !! "2024-03"%string = None
      /\ sumOfMonthlyBalances
           (Charts.monthlyData (isoHost 0) (parseISO "2023-01-01")
              (transactions rentLedger))
         = (-200)%float
      /\ (initialBalance rentLedger + -200)%float
         <> getBalanceAtDate (isoHost 0) rentLedger (parseISO "2024-03-01")).
Proof.
  split; [|split; [|split]].
  - intros host acc t. split; [|split].
    + intros k Hk. apply monthlyStep_other. exact Hk.
    + intros r. reflexivity.
    + unfold Charts.monthlyStep.
      set (k := Charts.monthKey host (newDate host (date t))).
      eexists. split; [apply lookup_insert_eq|].
      destruct (acc !! k) as [old|], (type t); simpl; repeat split.
  - intros host cutoff txs k. unfold Charts.monthlyData, Charts.filteredTransactions.
    rewrite filter_swap. apply fold_monthlyStep_month. reflexivity.
  - intros host cutoff txs f. apply fold_monthlyStep_recurrence.
  - split; [reflexivity|]. split; [reflexivity|].
    split; [vm_compute; reflexivity|].
    split; [exact monthlyData_rentLedger|].
    rewrite monthlyData_rentLedger.
    split; [reflexivity|]. split; [reflexivity|].
    split; [vm_compute; reflexivity|].
    intros H. apply (f_equal Prim2SF) in H. vm_compute in H. discriminate H.
Qed.

(** A transaction older than the cutoff of the selected range is filtered
    out before the aggregation and has no bucket at all. *)
Example old_transaction_not_charted :
  Charts.monthlyData (isoHost 0) (parseISO "2024-01-01") [oldTx] = ∅.
Proof. vm_compute. reflexivity. Qed.


(* ===================================================================== *)
(** * Further properties of the hook *)
(* ===================================================================== *)

(** ** Deleting *)

Lemma filter_filter_same {A : Type} (f : A -> bool) (l : list A) :
  List.filter f (List.filter f l) = List.filter f l.
Proof.
  apply filter_keeps_all. intros x Hx. apply filter_In in Hx. apply Hx.
Qed.

(** X1: [deleteTransaction] removes every transaction with the id (also when
    several share it) and keeps the others; deleting the same id again
    changes nothing, and two deletions give the same ledger in either
    order. *)
Theorem delete_removes_id (s : FinanceState) (i j : string) :
  (forall t, In t (transactions (deleteTransaction s i))
             <-> In t (transactions s) /\ id t <> i)
  /\ deleteTransaction (deleteTransaction s i) i = deleteTransaction s i
  /\ deleteTransaction (deleteTransaction s i) j
     = deleteTransaction (deleteTransaction s j) i.
Proof.
  split; [|split].
  - intros t. unfold deleteTransaction. simpl. rewrite filter_In.
    rewrite negb_true_iff, String.eqb_neq. reflexivity.
  - unfold deleteTransaction. simpl. rewrite filter_filter_same. reflexivity.
  - unfold deleteTransaction. simpl. rewrite filter_swap. reflexivity.
Qed.

Lemma deleteTransaction_fresh (s : FinanceState) (i : string) :
  i ∉ map id (transactions s) -> deleteTransaction s i = s.
Proof.
  intros Hfresh. destruct s as [b d txs tg]. unfold deleteTransaction.
  simpl in *. f_equal. apply filter_keeps_all. intros t Ht.
  apply negb_true_iff, String.eqb_neq. intros Heq. apply Hfresh.
  apply list_elem_of_In, in_map_iff. exists t. split; assumption.
Qed.

(** X2: deleting the id that [addTransaction] has just generated undoes the
    addition when that id was new to the ledger; in general it also deletes
    every older transaction with the same id. *)
Theorem add_then_delete (s : FinanceState) (draft : TransactionDraft)
    (rnd : string) (now : Z) :
  generateId rnd now ∉ map id (transactions s) ->
  deleteTransaction (addTransaction s draft rnd now) (generateId rnd now) = s
  /\ forall s' : FinanceState,
       deleteTransaction (addTransaction s' draft rnd now) (generateId rnd now)
       = deleteTransaction s' (generateId rnd now).
Proof.
  intros Hfresh.
  assert (Hgen : forall s' : FinanceState,
             deleteTransaction (addTransaction s' draft rnd now)
               (generateId rnd now)
             = deleteTransaction s' (generateId rnd now)).
  { intros s'. unfold deleteTransaction, addTransaction. simpl.
    rewrite List.filter_app. simpl. rewrite String.eqb_refl. simpl.
    rewrite app_nil_r. reflexivity. }
  split; [|exact Hgen].
  rewrite Hgen. apply deleteTransaction_fresh. exact Hfresh.
Qed.

Lemma add_then_delete_witness :
  (generateId "0.9x2k1q7c3ab" 1709251200001
     ∉ map id (transactions (addTransaction anchored salaryDraft
                               "0.4fzyo82mvyr" 1709251200000)))
  /\ deleteTransaction scenario (generateId "0.9x2k1q7c3ab" 1709251200001)
     = addTransaction anchored salaryDraft "0.4fzyo82mvyr" 1709251200000.
Proof.
  assert (H : generateId "0.9x2k1q7c3ab" 1709251200001
                ∉ map id (transactions (addTransaction anchored salaryDraft
                                          "0.4fzyo82mvyr" 1709251200000))).
  { intros Hin. apply list_elem_of_singleton in Hin. vm_compute in Hin.
    discriminate Hin. }
  split; [exact H|].
  apply (proj1 (add_then_delete
                  (addTransaction anchored salaryDraft
                     "0.4fzyo82mvyr" 1709251200000)
                  rentDraft "0.9x2k1q7c3ab" 1709251200001 H)).
Defined.

(** ** Adding and the projection *)

(** X3: with [initialDate] set, adding a transaction changes the projection
    at a target exactly as the loop body does on the old projection: the new
    transaction is processed last.  If its date is not on or before the
    target (it lies after it, or does not parse), the projection at that
    target is unchanged. *)
Theorem add_changes_projection (host : Host) (s : FinanceState)
    (draft : TransactionDraft) (rnd : string) (now : Z) (target : Date) :
  truthy (initialDate s) = true ->
  getBalanceAtDate host (addTransaction s draft rnd now) target
  = applyTransaction host target (getBalanceAtDate host s target)
      {| id := generateId rnd now; type := draft_type draft;
         amount := draft_amount draft; date := draft_date draft;
         description := draft_description draft;
         recurrence := draft_recurrence draft |}
  /\ (date_le (newDate host (draft_date draft)) target = false ->
      getBalanceAtDate host (addTransaction s draft rnd now) target
      = getBalanceAtDate host s target).
Proof.
  intros Hset.
  assert (Hadd : getBalanceAtDate host (addTransaction s draft rnd now) target
                 = applyTransaction host target (getBalanceAtDate host s target)
                     {| id := generateId rnd now; type := draft_type draft;
                        amount := draft_amount draft; date := draft_date draft;
                        description := draft_description draft;
                        recurrence := draft_recurrence draft |}).
  { rewrite !getBalanceAtDate_fold by assumption. simpl.
    rewrite fold_left_app. reflexivity. }
  split; [exact Hadd|].
  intros Hlate. rewrite Hadd, applyTransaction_contribution.
  unfold contribution. simpl. rewrite Hlate. reflexivity.
Qed.

Lemma add_changes_projection_witness :
  truthy (initialDate anchored) = true
  /\ date_le (newDate (isoHost 0) (draft_date salaryDraft))
             (parseISO "2024-01-15") = false
  /\ getBalanceAtDate (isoHost 0)
       (addTransaction anchored salaryDraft "0.4fzyo82mvyr" 1709251200000)
       (parseISO "2024-01-15")
     = getBalanceAtDate (isoHost 0) anchored (parseISO "2024-01-15").
Proof.
  split; [reflexivity|]. split; [reflexivity|].
  apply (proj2 (add_changes_projection (isoHost 0) anchored salaryDraft
                  "0.4fzyo82mvyr" 1709251200000 (parseISO "2024-01-15")
                  eq_refl)).
  reflexivity.
Defined.

(** ** What the projection reads *)

Lemma applyTransaction_sameMoney (host : Host) (target : Date) (b : float)
    (t t' : Transaction) :
  sameMoney t t' ->
  applyTransaction host target b t = applyTransaction host target b t'.
Proof.
  intros (Hty & Ham & Hda & Hre).
  unfold applyTransaction, calculateRecurringAmount, signedAmount.
  rewrite Hty, Ham, Hda, Hre. reflexivity.
Qed.

(** X4: the projection reads the initial balance, whether [initialDate] is
    set, and of each transaction its type, amount, date and recurrence, in
    order.  Ids, descriptions, the value of [initialDate] and [targetDate]
    never change it. *)
Theorem projection_reads (host : Host) (s s' : FinanceState) (target : Date) :
  initialBalance s = initialBalance s' ->
  truthy (initialDate s) = truthy (initialDate s') ->
  Forall2 sameMoney (transactions s) (transactions s') ->
  getBalanceAtDate host s target = getBalanceAtDate host s' target.
Proof.
  intros Hb Hd Htx. unfold getBalanceAtDate. rewrite <- Hd, <- Hb.
  destruct (truthy (initialDate s)); simpl; [|reflexivity].
  generalize (initialBalance s) as b.
  induction Htx as [|t t' l l' Ht _ IH]; intros b; simpl.
  - reflexivity.
  - rewrite (applyTransaction_sameMoney host target b t t' Ht). apply IH.
Qed.

Lemma projection_reads_witness :
  initialBalance scenario = initialBalance relabelled
  /\ truthy (initialDate scenario) = truthy (initialDate relabelled)
  /\ Forall2 sameMoney (transactions scenario) (transactions relabelled)
  /\ getBalanceAtDate (isoHost 0) scenario (parseISO "2024-03-01")
     = getBalanceAtDate (isoHost 0) relabelled (parseISO "2024-03-01").
Proof.
  assert (H : Forall2 sameMoney (transactions scenario) (transactions relabelled)).
  { repeat constructor. }
  split; [reflexivity|]. split; [reflexivity|]. split; [exact H|].
  apply (projection_reads (isoHost 0) scenario relabelled
           (parseISO "2024-03-01") eq_refl eq_refl H).
Defined.

(** ** Dates that are not dates *)

Lemma date_le_invalid_r (d : Date) : date_le d InvalidDate = false.
Proof. destruct d; reflexivity. Qed.

Lemma fold_no_contribution (host : Host) (target : Date) (l : list Transaction) :
  (forall t, In t l -> date_le (newDate host (date t)) target = false) ->
  forall b : float, fold_left (applyTransaction host target) l b = b.
Proof.
  induction l as [|t l IH]; intros Hno b; simpl.
  - reflexivity.
  - rewrite applyTransaction_contribution. unfold contribution.
    rewrite (Hno t) by (left; reflexivity). simpl.
    apply IH. intros t' Ht'. apply Hno. right. exact Ht'.
Qed.

(** X5: with [initialDate] set, the projection at an Invalid Date is the
    initial balance, whatever the transactions of the ledger; and a
    transaction whose date string is an Invalid Date is skipped at every
    target, so the projection is that of the ledger without it. *)
Theorem invalid_dates_skipped (host : Host) (s : FinanceState) :
  truthy (initialDate s) = true ->
  getBalanceAtDate host s InvalidDate = initialBalance s
  /\ (forall (l r : list Transaction) (t : Transaction) (target : Date),
        transactions s = l ++ t :: r ->
        newDate host (date t) = InvalidDate ->
        getBalanceAtDate host s target
        = getBalanceAtDate host
            {| initialBalance := initialBalance s; initialDate := initialDate s;
               transactions := l ++ r; targetDate := targetDate s |} target).
Proof.
  intros Hset. split.
  - rewrite getBalanceAtDate_fold by assumption.
    apply fold_no_contribution. intros t' _. apply date_le_invalid_r.
  - intros l r t target Htx Hbad.
    rewrite !getBalanceAtDate_fold by assumption. simpl.
    rewrite Htx, !fold_left_app. simpl.
    rewrite applyTransaction_contribution. unfold contribution.
    rewrite Hbad. reflexivity.
Qed.

Lemma invalid_dates_skipped_witness :
  truthy (initialDate undatedLedger) = true
  /\ transactions undatedLedger = [salaryTx] ++ undatedTx :: []
  /\ newDate (isoHost 0) (date undatedTx) = InvalidDate
  /\ getBalanceAtDate (isoHost 0) scenario InvalidDate = 1000%float
  /\ getBalanceAtDate (isoHost 0) undatedLedger InvalidDate = 1000%float
  /\ getBalanceAtDate (isoHost 0) undatedLedger (parseISO "2024-03-01")
     = 1500%float.
Proof.
  split; [reflexivity|]. split; [reflexivity|]. split; [reflexivity|].
  split; [apply (invalid_dates_skipped (isoHost 0) scenario eq_refl)|].
  pose proof (invalid_dates_skipped (isoHost 0) undatedLedger eq_refl)
    as [H1 H2].
  split; [rewrite H1; reflexivity|].
  rewrite (H2 [salaryTx] [] undatedTx (parseISO "2024-03-01") eq_refl eq_refl).
  reflexivity.
Defined.

(** ** Resetting and anchoring *)

(** X6: after [clearAllData] the projection is 0 at every target; anchoring
    the cleared ledger with a date string makes it the new balance at every
    target, except that an empty date string leaves the ledger unanchored
    and the projection 0. *)
Theorem clear_then_anchor (host : Host) (s : FinanceState) (b : float)
    (d : string) (target : Date) :
  getBalanceAtDate host (clearAllData s) target = 0%float
  /\ getBalanceAtDate host (setInitialBalance (clearAllData s) b d) target
     = (if truthy (Some d) then b else 0%float)
  /\ getBalanceAtDate host (setInitialBalance s b EmptyString) target = 0%float.
Proof.
  split; [reflexivity|]. split; [|reflexivity].
  unfold getBalanceAtDate. simpl initialDate.
  destruct (truthy (Some d)); reflexivity.
Qed.

(** ** The calendar over time, and the date predicates *)

Lemma YearFromDay_mono (d1 d2 : Z) : d1 <= d2 -> YearFromDay d1 <= YearFromDay d2.
Proof.
  intros Hle. pose proof (YearFromDay_spec d1) as S1.
  pose proof (YearFromDay_spec d2) as S2.
  destruct (Z_le_gt_dec (YearFromDay d1) (YearFromDay d2)) as [H|H]; [exact H|].
  pose proof (DayFromYear_mono (YearFromDay d2 + 1) (YearFromDay d1) ltac:(lia)).
  lia.
Qed.

Lemma Day_mono (t1 t2 : Z) : t1 <= t2 -> Day t1 <= Day t2.
Proof. intros H. unfold Day, msPerDay. apply Z.div_le_mono; lia. Qed.

Lemma MonthFromTime_range (t : Z) : 0 <= MonthFromTime t <= 11.
Proof.
  unfold MonthFromTime. cbv zeta.
  repeat match goal with
         | |- context [?a <? ?b] => destruct (a <? b)
         end; lia.
Qed.

Lemma InLeapYear_cases (t : Z) : InLeapYear t = 0 \/ InLeapYear t = 1.
Proof. unfold InLeapYear. destruct (_ =? 366); [right | left]; reflexivity. Qed.

(** Within one year the month does not decrease with the day. *)
Lemma month_chain_mono (l d1 d2 : Z) :
  d1 <= d2 ->
  (if d1 <? 31 then 0
   else if d1 <? 59 + l then 1
   else if d1 <? 90 + l then 2
   else if d1 <? 120 + l then 3
   else if d1 <? 151 + l then 4
   else if d1 <? 181 + l then 5
   else if d1 <? 212 + l then 6
   else if d1 <? 243 + l then 7
   else if d1 <? 273 + l then 8
   else if d1 <? 304 + l then 9
   else if d1 <? 334 + l then 10
   else 11)
  <= (if d2 <? 31 then 0
      else if d2 <? 59 + l then 1
      else if d2 <? 90 + l then 2
      else if d2 <? 120 + l then 3
      else if d2 <? 151 + l then 4
      else if d2 <? 181 + l then 5
      else if d2 <? 212 + l then 6
      else if d2 <? 243 + l then 7
      else if d2 <? 273 + l then 8
      else if d2 <? 304 + l then 9
      else if d2 <? 334 + l then 10
      else 11).
Proof.
  intros Hle.
  repeat match goal with
         | |- context [?a <? ?b] => destruct (Z.ltb_spec a b)
         end; lia.
Qed.

(** Year * 12 + month does not decrease with time. *)
Lemma month_index_mono (t1 t2 : Z) :
  t1 <= t2 ->
  YearFromTime t1 * 12 + MonthFromTime t1 <= YearFromTime t2 * 12 + MonthFromTime t2.
Proof.
  intros Hle.
  pose proof (Day_mono t1 t2 Hle) as HD.
  pose proof (YearFromDay_mono _ _ HD) as HY. fold (YearFromTime t1) in HY.
  fold (YearFromTime t2) in HY.
  pose proof (MonthFromTime_range t1). pose proof (MonthFromTime_range t2).
  destruct (Z.eq_dec (YearFromTime t1) (YearFromTime t2)) as [Heq|Hne]; [|lia].
  assert (HM : MonthFromTime t1 <= MonthFromTime t2); [|lia].
  unfold MonthFromTime, DayWithinYear, InLeapYear. cbv zeta. rewrite Heq.
  apply month_chain_mono. lia.
Qed.

(** X8: the three date predicates of the hook, in terms of the period
    counts.  Two valid dates are in the same month exactly when no month
    lies between them, and in the same year exactly when no year does;
    [isDateBefore] holds for a date and itself (it is "not after"), and of
    two valid dates one is before the other. *)
Theorem date_predicates (host : Host) (a b : Z) :
  (isSameMonth host (Some a) (Some b) = true
   <-> getMonthsBetween host (Some a) (Some b) = Some 0)
  /\ (isSameYear host (Some a) (Some b) = true
      <-> getYearsBetween host (Some a) (Some b) = Some 0)
  /\ isDateBefore (Some a) (Some a) = true
  /\ (isDateBefore (Some a) (Some b) = true \/ isDateBefore (Some b) (Some a) = true)
  /\ (isDateBefore (Some a) (Some b) = true <-> a <= b).
Proof.
  pose proof (MonthFromTime_range (LocalTime host a)) as Ha.
  pose proof (MonthFromTime_range (LocalTime host b)) as Hb.
  split; [|split; [|split; [|split]]].
  - unfold isSameMonth, getMonthsBetween. simpl.
    rewrite andb_true_iff, !bool_decide_eq_true. split.
    + intros [[Hy _] [Hm _]]. injection Hy as Hy. injection Hm as Hm.
      f_equal. lia.
    + intros H. injection H as H.
      assert (YearFromTime (LocalTime host a) = YearFromTime (LocalTime host b)
              /\ MonthFromTime (LocalTime host a) = MonthFromTime (LocalTime host b))
        as [-> ->] by lia.
      repeat split; discriminate.
  - unfold isSameYear, getYearsBetween. simpl.
    rewrite bool_decide_eq_true. split.
    + intros [Hy _]. injection Hy as Hy. f_equal. lia.
    + intros H. injection H as H. split; [f_equal; lia | discriminate].
  - unfold isDateBefore. simpl. apply Z.leb_refl.
  - unfold isDateBefore. simpl. rewrite !Z.leb_le. lia.
  - unfold isDateBefore. simpl. apply Z.leb_le.
Qed.

(** An Invalid Date is in no month and before nothing. *)
Lemma date_predicates_invalid (host : Host) (d : Date) :
  isSameMonth host InvalidDate d = false
  /\ isSameYear host InvalidDate d = false
  /\ isDateBefore InvalidDate d = false
  /\ isDateBefore d InvalidDate = false.
Proof.
  repeat split.
  - unfold isSameMonth. simpl. apply andb_false_intro1.
    apply bool_decide_eq_false. intros [_ H]. contradiction.
  - unfold isSameYear. simpl. apply bool_decide_eq_false. intros [_ H].
    contradiction.
  - apply date_le_invalid_r.
Qed.

(** ** The day of the target *)

Lemma applyTransaction_same_month (host : Host) (t1 t2 : Date) (b : float)
    (t : Transaction) :
  getFullYear host t1 = getFullYear host t2 ->
  getMonth host t1 = getMonth host t2 ->
  date_le (newDate host (date t)) t1 = date_le (newDate host (date t)) t2 ->
  applyTransaction host t1 b t = applyTransaction host t2 b t.
Proof.
  intros Hy Hm Hle. rewrite !applyTransaction_contribution.
  unfold contribution, calculateRecurringAmount, getMonthsBetween,
    getYearsBetween.
  rewrite Hle, Hy, Hm. reflexivity.
Qed.

(** X9: the projection depends on the target through its calendar year and
    month and through which transactions are dated on or before it.  Two
    targets in the same month with the same transactions on or before them
    project to the same balance, whatever their days. *)
Theorem same_month_same_projection (host : Host) (s : FinanceState)
    (t1 t2 : Date) :
  getFullYear host t1 = getFullYear host t2 ->
  getMonth host t1 = getMonth host t2 ->
  (forall t, In t (transactions s) ->
             date_le (newDate host (date t)) t1
             = date_le (newDate host (date t)) t2) ->
  getBalanceAtDate host s t1 = getBalanceAtDate host s t2.
Proof.
  intros Hy Hm Hle. unfold getBalanceAtDate.
  destruct (negb (truthy (initialDate s))); [reflexivity|]. cbv zeta.
  generalize (initialBalance s) as b.
  induction (transactions s) as [|t l IH]; intros b; simpl.
  - reflexivity.
  - rewrite (applyTransaction_same_month host t1 t2 b t Hy Hm)
      by (apply Hle; left; reflexivity).
    apply IH. intros t' Ht'. apply Hle. right. exact Ht'.
Qed.

Lemma same_month_same_projection_witness :
  getFullYear (isoHost 0) (parseISO "2024-03-01")
  = getFullYear (isoHost 0) (parseISO "2024-03-31T23:59:59.999Z")
  /\ getMonth (isoHost 0) (parseISO "2024-03-01")
     = getMonth (isoHost 0) (parseISO "2024-03-31T23:59:59.999Z")
  /\ getBalanceAtDate (isoHost 0) scenario (parseISO "2024-03-01")
     = getBalanceAtDate (isoHost 0) scenario
         (parseISO "2024-03-31T23:59:59.999Z").
Proof.
  split; [reflexivity|]. split; [reflexivity|].
  apply (same_month_same_projection (isoHost 0) scenario
           (parseISO "2024-03-01") (parseISO "2024-03-31T23:59:59.999Z")
           eq_refl eq_refl).
  intros t [<-|[<-|[]]]; reflexivity.
Defined.

(** ** Identifiers: the clock in base 36 *)

(** X10: the clock part of an id reads back as the clock: for random digits
    of the same length, two generated ids are equal only if both the digits
    and the clock reading are; in particular the same digits at different
    milliseconds give different ids. *)
Theorem generateId_injective (rnd rnd' : string) (now now' : Z) :
  0 <= now ->
  0 <= now' ->
  String.length (substring_from 2 rnd) = String.length (substring_from 2 rnd') ->
  generateId rnd now = generateId rnd' now'
  <-> substring_from 2 rnd = substring_from 2 rnd' /\ now = now'.
Proof.
  intros Hn Hn' Hlen. split.
  - intros Heq. unfold generateId in Heq.
    destruct (string_app_inv _ _ _ _ Hlen Heq) as [Hr Hc].
    split; [exact Hr|].
    rewrite <- (from36_toString36 now Hn), <- (from36_toString36 now' Hn'), Hc.
    reflexivity.
  - intros [Hr ->]. unfold generateId. rewrite Hr. reflexivity.
Qed.

Lemma generateId_injective_witness :
  0 <= 1709251200000
  /\ 0 <= 1709251200001
  /\ String.length (substring_from 2 "0.4fzyo82mvyr")
     = String.length (substring_from 2 "0.4fzyo82mvyr")
  /\ generateId "0.4fzyo82mvyr" 1709251200000
     <> generateId "0.4fzyo82mvyr" 1709251200001.
Proof.
  split; [lia|]. split; [lia|]. split; [reflexivity|].
  intros Heq.
  apply (generateId_injective "0.4fzyo82mvyr" "0.4fzyo82mvyr"
           1709251200000 1709251200001 ltac:(lia) ltac:(lia) eq_refl) in Heq.
  destruct Heq as [_ H]. discriminate H.
Defined.

(** ** Dates through strings: [toISOString] and back *)

Lemma digitval_digitChar (d : Z) : 0 <= d <= 9 -> digitval (digitChar d) = Some d.
Proof.
  intros H.
  assert (Hc : d = 0 \/ d = 1 \/ d = 2 \/ d = 3 \/ d = 4 \/ d = 5 \/ d = 6
               \/ d = 7 \/ d = 8 \/ d = 9) by lia.
  repeat (destruct Hc as [-> | Hc]; [reflexivity|]). subst d. reflexivity.
Qed.

Lemma string_nil_app (b : string) : (EmptyString ++ b)%string = b.
Proof. reflexivity. Qed.

Lemma string_cons_app (c : ascii) (a b : string) :
  (String c a ++ b)%string = String c (a ++ b)%string.
Proof. reflexivity. Qed.

Lemma string_app_assoc (a b c : string) :
  ((a ++ b) ++ c)%string = (a ++ (b ++ c))%string.
Proof.
  induction a as [|x a IH].
  - reflexivity.
  - rewrite !string_cons_app, IH. reflexivity.
Qed.

Lemma digits_cons (n : nat) (acc : Z) (c : ascii) (s : string) :
  digits (S n) acc (String c s)
  = match digitval c with
    | Some d => digits n (10 * acc + d) s
    | None => None
    end.
Proof. reflexivity. Qed.

(** [digits] reads its last digit last. *)
Lemma digits_snoc (n : nat) :
  forall (acc : Z) (s : string),
    digits (S n) acc s
    = match digits n acc s with
      | Some (a, String c s') =>
          match digitval c with
          | Some d => Some (10 * a + d, s')
          | None => None
          end
      | _ => None
      end.
Proof.
  induction n as [|n IH]; intros acc s.
  - destruct s as [|c s']; [reflexivity|].
    cbn [digits]. destruct (digitval c); reflexivity.
  - destruct s as [|c s']; [reflexivity|].
    rewrite (digits_cons (S n)), (digits_cons n).
    destruct (digitval c) as [d|]; [|reflexivity].
    apply IH.
Qed.

Lemma digits_fixedDigits (n : nat) :
  forall (z acc : Z) (rest : string),
    0 <= z < 10 ^ Z.of_nat n ->
    digits n acc (fixedDigits n z ++ rest) = Some (acc * 10 ^ Z.of_nat n + z, rest).
Proof.
  induction n as [|n IH]; intros z acc rest Hz.
  - simpl in *. f_equal. f_equal. lia.
  - rewrite digits_snoc. cbn [fixedDigits]. rewrite string_app_assoc.
    rewrite Nat2Z.inj_succ, Z.pow_succ_r in * by lia.
    assert (Hmod : 0 <= z mod 10 < 10) by (apply Z.mod_pos_bound; lia).
    assert (Hdiv : z = 10 * (z / 10) + z mod 10) by (apply Z.div_mod; lia).
    rewrite string_cons_app, string_nil_app, IH.
    + rewrite digitval_digitChar by lia.
      f_equal. f_equal. lia.
    + split; [apply Z.div_pos; lia|]. apply Z.div_lt_upper_bound; lia.
Qed.

Lemma DaysInYear_leap (y : Z) :
  DaysInYear y = 365 + (if DaysInYear y =? 366 then 1 else 0).
Proof. destruct (DaysInYear_cases y) as [E | E]; rewrite E; reflexivity. Qed.

Lemma DayWithinYear_range (t : Z) : 0 <= DayWithinYear t < 365 + InLeapYear t.
Proof.
  unfold DayWithinYear, InLeapYear, YearFromTime.
  pose proof (YearFromDay_spec (Day t)) as S.
  rewrite DayFromYear_succ, (DaysInYear_leap (YearFromDay (Day t))) in S. lia.
Qed.

Lemma MonthFromTime_bounds (t : Z) :
  DaysBeforeMonth (InLeapYear t) (MonthFromTime t) <= DayWithinYear t
  < (if MonthFromTime t =? 11 then 365 + InLeapYear t
     else DaysBeforeMonth (InLeapYear t) (MonthFromTime t + 1)).
Proof.
  pose proof (DayWithinYear_range t) as Hd. unfold MonthFromTime. cbv zeta.
  set (d := DayWithinYear t) in *. clearbody d.
  destruct (InLeapYear_cases t) as [E | E]; rewrite E in *; clear E;
    repeat match goal with
           | |- context [?a <? ?b] => destruct (Z.ltb_spec a b)
           end; simpl in *; lia.
Qed.

Lemma DaysInMonth_range (y m : Z) : 0 <= m <= 11 -> 28 <= DaysInMonth y m <= 31.
Proof.
  intros Hm. unfold DaysInMonth. cbv zeta.
  destruct (DaysInYear y =? 366); each_month m Hm; simpl; lia.
Qed.

Lemma DateFromTime_range (t : Z) :
  1 <= DateFromTime t <= DaysInMonth (YearFromTime t) (MonthFromTime t).
Proof.
  pose proof (MonthFromTime_bounds t) as Hb.
  unfold DateFromTime, DaysInMonth. cbv zeta. fold (InLeapYear t).
  destruct (Z.eqb_spec (MonthFromTime t) 11) as [E|E].
  - rewrite E in *. cbn [DaysBeforeMonth] in *. lia.
  - lia.
Qed.

Lemma MakeDay_fields (t : Z) :
  MakeDay (YearFromTime t) (MonthFromTime t) (DateFromTime t) = Day t.
Proof. unfold MakeDay, DateFromTime, DayWithinYear, InLeapYear. lia. Qed.

Lemma MakeTime_fields (t : Z) :
  Day t * msPerDay
  + MakeTime (HourFromTime t) (MinFromTime t) (SecFromTime t) (msFromTime t)
  = t.
Proof.
  unfold Day, msPerDay, MakeTime, HourFromTime, MinFromTime, SecFromTime,
    msFromTime.
  Z.div_mod_to_equations. lia.
Qed.

Lemma bind_Some {A B : Type} (x : A) (f : A -> option B) : Some x ≫= f = f x.
Proof. reflexivity. Qed.

Lemma expect_cons (c : ascii) (s : string) : expect c (String c s) = Some s.
Proof. unfold expect. rewrite Ascii.eqb_refl. reflexivity. Qed.

Lemma expect_literal (c : ascii) (s : string) :
  expect c (String c EmptyString ++ s) = Some s.
Proof. apply expect_cons. Qed.

(** Reading one zero-filled field. *)
Lemma digits_field (n : nat) (z : Z) (rest : string) :
  0 <= z < 10 ^ Z.of_nat n ->
  digits n 0 (fixedDigits n z ++ rest) = Some (z, rest).
Proof.
  intros Hz. rewrite digits_fixedDigits by exact Hz.
  rewrite Z.mul_0_l, Z.add_0_l. reflexivity.
Qed.

Ltac read_field :=
  rewrite digits_field by (simpl; lia); rewrite bind_Some; cbv beta iota.

Ltac read_literal :=
  rewrite expect_literal; rewrite bind_Some; cbv beta iota.

Lemma parseTimePart_fields (h mi sec ms : Z) :
  0 <= h <= 23 -> 0 <= mi <= 59 -> 0 <= sec <= 59 -> 0 <= ms <= 999 ->
  parseTimePart (fixedDigits 2 h ++ ":" ++ fixedDigits 2 mi
                 ++ ":" ++ fixedDigits 2 sec ++ "." ++ fixedDigits 3 ms ++ "Z")%string
  = Some (MakeTime h mi sec ms).
Proof.
  intros Hh Hmi Hs Hms. unfold parseTimePart.
  read_field. read_literal. read_field. read_literal. read_field.
  read_literal. read_field.
  rewrite expect_cons, bind_Some. cbv beta iota.
  assert (Hchk : (h <=? 23) && (mi <=? 59) && (sec <=? 59) = true).
  { rewrite !andb_true_iff, !Z.leb_le. lia. }
  rewrite Hchk. reflexivity.
Qed.

Lemma parseISO_fields (y m d h mi sec ms : Z) :
  0 <= y <= 9999 -> 1 <= m <= 12 -> 1 <= d <= DaysInMonth y (m - 1) ->
  0 <= h <= 23 -> 0 <= mi <= 59 -> 0 <= sec <= 59 -> 0 <= ms <= 999 ->
  parseISO (fixedDigits 4 y ++ "-" ++ fixedDigits 2 m ++ "-" ++ fixedDigits 2 d
            ++ "T" ++ fixedDigits 2 h ++ ":" ++ fixedDigits 2 mi
            ++ ":" ++ fixedDigits 2 sec ++ "." ++ fixedDigits 3 ms ++ "Z")%string
  = Some (MakeDay y (m - 1) d * msPerDay + MakeTime h mi sec ms).
Proof.
  intros Hy Hm Hd Hh Hmi Hs Hms.
  pose proof (DaysInMonth_range y (m - 1) ltac:(lia)) as Hdm.
  unfold parseISO.
  read_field. read_literal. read_field. read_literal. read_field.
  assert (Hchk : (1 <=? m) && (m <=? 12) && (1 <=? d)
                 && (d <=? DaysInMonth y (m - 1)) = true).
  { rewrite !andb_true_iff, !Z.leb_le. lia. }
  rewrite Hchk, string_cons_app, string_nil_app, Ascii.eqb_refl.
  rewrite parseTimePart_fields by assumption. reflexivity.
Qed.

Lemma toISOString_common (t : Z) :
  0 <= YearFromTime t <= 9999 ->
  toISOString (Some t)
  = Some (fixedDigits 4 (YearFromTime t)
          ++ "-" ++ fixedDigits 2 (MonthFromTime t + 1)
          ++ "-" ++ fixedDigits 2 (DateFromTime t)
          ++ "T" ++ fixedDigits 2 (HourFromTime t)
          ++ ":" ++ fixedDigits 2 (MinFromTime t)
          ++ ":" ++ fixedDigits 2 (SecFromTime t)
          ++ "." ++ fixedDigits 3 (msFromTime t) ++ "Z")%string.
Proof.
  intros Hy. unfold toISOString. cbv zeta.
  assert (Hin : (0 <=? YearFromTime t) && (YearFromTime t <=? 9999) = true).
  { rewrite andb_true_iff, !Z.leb_le. exact Hy. }
  rewrite Hin. reflexivity.
Qed.

Lemma parseISO_toISOString (t : Z) (iso : string) :
  0 <= YearFromTime t <= 9999 ->
  toISOString (Some t) = Some iso ->
  parseISO iso = Some t.
Proof.
  intros Hy Hiso. rewrite (toISOString_common t Hy) in Hiso.
  assert (Heq : iso
                = (fixedDigits 4 (YearFromTime t)
                   ++ "-" ++ fixedDigits 2 (MonthFromTime t + 1)
                   ++ "-" ++ fixedDigits 2 (DateFromTime t)
                   ++ "T" ++ fixedDigits 2 (HourFromTime t)
                   ++ ":" ++ fixedDigits 2 (MinFromTime t)
                   ++ ":" ++ fixedDigits 2 (SecFromTime t)
                   ++ "." ++ fixedDigits 3 (msFromTime t) ++ "Z")%string)
    by congruence.
  rewrite Heq. clear Heq Hiso.
  pose proof (MonthFromTime_range t) as Hm.
  pose proof (DateFromTime_range t) as Hd.
  rewrite parseISO_fields.
  - replace (MonthFromTime t + 1 - 1) with (MonthFromTime t) by lia.
    rewrite MakeDay_fields, MakeTime_fields. reflexivity.
  - exact Hy.
  - lia.
  - replace (MonthFromTime t + 1 - 1) with (MonthFromTime t) by lia. exact Hd.
  - unfold HourFromTime. pose proof (Z.mod_pos_bound (t / 3600000) 24). lia.
  - unfold MinFromTime. pose proof (Z.mod_pos_bound (t / 60000) 60). lia.
  - unfold SecFromTime. pose proof (Z.mod_pos_bound (t / 1000) 60). lia.
  - unfold msFromTime. pose proof (Z.mod_pos_bound t 1000). lia.
Qed.

(** X11: a date written by [toISOString] and read back by [new Date] is
    the same instant, for years 0 to 9999: this is how the forms hand dates
    to the hook and how the projection reads them.  Only an Invalid Date
    makes [toISOString] throw. *)
Theorem toISOString_roundtrip (t : Z) :
  0 <= YearFromTime t <= 9999 ->
  exists iso : string,
    toISOString (Some t) = Some iso /\ parseISO iso = Some t.
Proof.
  intros Hy. destruct (toISOString (Some t)) as [iso|] eqn:Hiso.
  - exists iso. split; [reflexivity|].
    apply (parseISO_toISOString t iso Hy Hiso).
  - discriminate Hiso.
Qed.

Lemma toISOString_roundtrip_witness :
  0 <= YearFromTime 1709251200123 <= 9999
  /\ exists iso : string,
       toISOString (Some 1709251200123) = Some iso
       /\ parseISO iso = Some 1709251200123.
Proof.
  assert (H : 0 <= YearFromTime 1709251200123 <= 9999) by (vm_compute; split; discriminate).
  split; [exact H|]. apply (toISOString_roundtrip 1709251200123 H).
Defined.

(** ** The forms *)

Lemma Prim2SF_zero : Prim2SF 0 = S754_zero false.
Proof. reflexivity. Qed.

(** A number is positive exactly when it is not [NaN] and not [<= 0]. *)
Lemma positive_iff (x : float) :
  PrimFloat.ltb 0 x = true <-> isNaN x = false /\ PrimFloat.leb x 0 = false.
Proof.
  unfold isNaN. rewrite ltb_spec, leb_spec, FloatAxioms.eqb_spec, Prim2SF_zero.
  destruct (Prim2SF x) as [s|s| |s m e]; simpl.
  - split; [discriminate | intros [_ H]; discriminate H].
  - destruct s; simpl; split; try discriminate; try (intros [_ H]; discriminate H);
      intros _; split; reflexivity.
  - split; [discriminate | intros [H _]; discriminate H].
  - unfold SFeqb, SFcompare. rewrite Z.compare_refl.
    change (Pos.compare_cont Eq m m) with (Pos.compare m m).
    rewrite Pos.compare_refl.
    destruct s; simpl; split; try discriminate; try (intros [_ H]; discriminate H);
      intros _; split; reflexivity.
Qed.

(** A number is [>= 0] exactly when it is not [NaN] and not [< 0]. *)
Lemma nonnegative_iff (x : float) :
  PrimFloat.leb 0 x = true <-> isNaN x = false /\ PrimFloat.ltb x 0 = false.
Proof.
  unfold isNaN. rewrite ltb_spec, leb_spec, FloatAxioms.eqb_spec, Prim2SF_zero.
  destruct (Prim2SF x) as [s|s| |s m e]; simpl.
  - split; [intros _; split; reflexivity | reflexivity].
  - destruct s; simpl; split; try discriminate; try (intros [_ H]; discriminate H);
      intros _; try split; reflexivity.
  - split; [discriminate | intros [H _]; discriminate H].
  - unfold SFeqb, SFcompare. rewrite Z.compare_refl.
    change (Pos.compare_cont Eq m m) with (Pos.compare m m).
    rewrite Pos.compare_refl.
    destruct s; simpl; split; try discriminate; try (intros [_ H]; discriminate H);
      intros _; try split; reflexivity.
Qed.

Lemma truthy_nonempty (s : string) : truthy (Some s) = true <-> s <> EmptyString.
Proof. destruct s; simpl; split; congruence. Qed.

(** X12: the transaction form passes a draft to [addTransaction] exactly
    when both fields are filled, the parsed amount is a positive number and
    the picked date is valid.  The draft then carries that amount, the
    description, type and recurrence, and the picked date as written by
    [toISOString]; so every amount the form lets through is greater than
    0. *)
Theorem form_accepts (parseFloat : string -> float) (ty : TransactionType)
    (day : Date) (rec : RecurrenceType) (amount description : string)
    (draft : TransactionDraft) :
  TransactionForm.handleSubmit parseFloat ty day rec amount description
  = Accepted draft
  <-> amount <> EmptyString
      /\ description <> EmptyString
      /\ PrimFloat.ltb 0 (parseFloat amount) = true
      /\ toISOString day = Some (draft_date draft)
      /\ draft_amount draft = parseFloat amount
      /\ draft_description draft = description
      /\ draft_type draft = ty
      /\ draft_recurrence draft = rec.
Proof.
  unfold TransactionForm.handleSubmit.
  rewrite positive_iff, <- !truthy_nonempty.
  destruct (truthy (Some amount)); cbn [negb orb];
    [|split; [discriminate | intros (H & _); discriminate H]].
  destruct (truthy (Some description)); cbn [negb orb];
    [|split; [discriminate | intros (_ & H & _); discriminate H]].
  destruct (isNaN (parseFloat amount)); cbn [negb orb];
    [split; [discriminate | intros (_ & _ & [H _] & _); discriminate H]|].
  destruct (PrimFloat.leb (parseFloat amount) 0); cbn [negb orb];
    [split; [discriminate | intros (_ & _ & [_ H] & _); discriminate H]|].
  destruct (toISOString day) as [iso|].
  - split.
    + intros H. injection H as <-. simpl. repeat split; reflexivity.
    + intros (_ & _ & _ & Hiso & Ha & Hd & Ht & Hr).
      destruct draft as [dt da dd dde dr]. simpl in *.
      injection Hiso as ->. subst. reflexivity.
  - split; [discriminate | intros (_ & _ & _ & H & _); discriminate H].
Qed.

Lemma getMonthsBetween_same (host : Host) (t : Z) :
  getMonthsBetween host (Some t) (Some t) = Some 0
  /\ getYearsBetween host (Some t) (Some t) = Some 0.
Proof.
  unfold getMonthsBetween, getYearsBetween. simpl.
  rewrite !Z.sub_diag. split; reflexivity.
Qed.

Lemma contribution_at_own_date (host : Host) (tx : Transaction) (t : Z) :
  newDate host (date tx) = Some t ->
  contribution host (Some t) tx = Some (signedAmount tx).
Proof.
  intros Hd. unfold contribution. rewrite Hd. simpl date_le.
  rewrite Z.leb_refl. unfold calculateRecurringAmount.
  destruct (getMonthsBetween_same host t) as [-> ->].
  destruct (recurrence tx); simpl; try reflexivity;
    change (Z2F 1) with 1%float; rewrite float_mul_1_r; reflexivity.
Qed.

(** X13: a transaction submitted through the form is counted by the
    projection at its own date, whatever its recurrence: with [initialDate]
    set, the balance at the picked instant rises or falls by exactly the
    entered amount when the transaction is added.  The picked date reaches
    the hook as the string [toISOString] wrote; this holds on every host
    whose [Date] constructor reads that string back as the picked instant,
    which ECMAScript requires of it and which the parser of this
    development does for the years 0 to 9999. *)
Theorem submitted_counts_at_its_date (parseFloat : string -> float)
    (host : Host) (s : FinanceState) (ty : TransactionType) (t : Z)
    (rec : RecurrenceType) (amount description : string)
    (draft : TransactionDraft) (rnd : string) (now : Z) :
  truthy (initialDate s) = true ->
  (forall iso : string,
     toISOString (Some t) = Some iso -> newDate host iso = Some t) ->
  TransactionForm.handleSubmit parseFloat ty (Some t) rec amount description
  = Accepted draft ->
  getBalanceAtDate host (addTransaction s draft rnd now) (Some t)
  = (getBalanceAtDate host s (Some t)
     + match ty with
       | income => parseFloat amount
       | expense => - parseFloat amount
       end)%float.
Proof.
  intros Hset Hback Hsub. unfold TransactionForm.handleSubmit in Hsub.
  destruct (negb (truthy (Some amount)) || negb (truthy (Some description)));
    [discriminate Hsub|].
  destruct (isNaN (parseFloat amount) || PrimFloat.leb (parseFloat amount) 0);
    [discriminate Hsub|].
  destruct (toISOString (Some t)) as [iso|] eqn:Hiso; [|discriminate Hsub].
  assert (Hdraft : draft
                   = {| draft_type := ty; draft_amount := parseFloat amount;
                        draft_date := iso; draft_description := description;
                        draft_recurrence := rec |}) by congruence.
  subst draft.
  rewrite !getBalanceAtDate_fold by assumption. simpl.
  rewrite fold_left_app. simpl.
  rewrite applyTransaction_contribution, contribution_at_own_date.
  - reflexivity.
  - simpl. apply Hback. reflexivity.
Qed.

Lemma submitted_counts_at_its_date_witness :
  truthy (initialDate anchored) = true
  /\ (forall iso : string,
        toISOString (Some 1709251200123) = Some iso ->
        newDate (isoHost 25200000) iso = Some 1709251200123)
  /\ getBalanceAtDate (isoHost 25200000)
       (addTransaction anchored
          {| draft_type := expense; draft_amount := 500;
             draft_date := "2024-03-01T00:00:00.123Z";
             draft_description := "rent"; draft_recurrence := yearly |}
          "0.4fzyo82mvyr" 1709251200123)
       (Some 1709251200123)
     = (getBalanceAtDate (isoHost 25200000%Z) anchored (Some 1709251200123%Z)
        + - parseFloat_example "500")%float.
Proof.
  assert (H : forall iso : string,
             toISOString (Some 1709251200123) = Some iso ->
             newDate (isoHost 25200000) iso = Some 1709251200123).
  { intros iso Hiso. vm_compute in Hiso. injection Hiso as <-.
    vm_compute. reflexivity. }
  split; [reflexivity|]. split; [exact H|].
  apply (submitted_counts_at_its_date parseFloat_example (isoHost 25200000)
           anchored expense 1709251200123 yearly "500" "rent" _
           "0.4fzyo82mvyr" 1709251200123 eq_refl H).
  vm_compute. reflexivity.
Defined.

Lemma toISOString_nonempty (d : Date) (iso : string) :
  toISOString d = Some iso -> truthy (Some iso) = true.
Proof.
  destruct d as [t|]; [|discriminate]. unfold toISOString. cbv zeta.
  intros H. assert (Hiso : exists a b, iso = (a ++ String "-" b)%string).
  { injection H as <-. eexists. eexists. reflexivity. }
  destruct Hiso as (a & b & ->). destruct a; reflexivity.
Qed.

(** X14: the initial-balance form calls [setInitialBalance] exactly when the
    field is filled, the parsed amount is a number that is not below 0 and
    the picked date is valid; the date string it passes is never empty, so
    the ledger is anchored afterwards and, while it has no transactions,
    projects the entered amount at every target. *)
Theorem anchor_form_accepts (parseFloat : string -> float) (input : string)
    (day : Date) (amount : float) (iso : string) :
  (CurrentBalance.handleSubmit parseFloat input day = Some (Accepted (amount, iso))
   <-> input <> EmptyString
       /\ amount = parseFloat input
       /\ PrimFloat.leb 0 amount = true
       /\ toISOString day = Some iso)
  /\ (CurrentBalance.handleSubmit parseFloat input day
      = Some (Accepted (amount, iso)) ->
      forall (host : Host) (s : FinanceState) (target : Date),
        transactions s = [] ->
        getBalanceAtDate host (setInitialBalance s amount iso) target = amount).
Proof.
  assert (Hiff : CurrentBalance.handleSubmit parseFloat input day
                 = Some (Accepted (amount, iso))
                 <-> input <> EmptyString
                     /\ amount = parseFloat input
                     /\ PrimFloat.leb 0 amount = true
                     /\ toISOString day = Some iso).
  { unfold CurrentBalance.handleSubmit. rewrite <- truthy_nonempty.
    destruct (truthy (Some input)); cbn [negb];
      [|split; [discriminate | intros (H & _); discriminate H]].
    split.
    - destruct (isNaN (parseFloat input)) eqn:Hnan; cbn [orb]; [discriminate|].
      destruct (PrimFloat.ltb (parseFloat input) 0) eqn:Hneg; [discriminate|].
      destruct (toISOString day) as [iso'|]; [|discriminate].
      intros H. assert (amount = parseFloat input /\ iso' = iso) as [-> ->]
        by (split; congruence).
      repeat split. apply nonnegative_iff. split; assumption.
    - intros (_ & -> & Hpos & ->).
      apply nonnegative_iff in Hpos. destruct Hpos as [-> ->]. reflexivity. }
  split; [exact Hiff|].
  intros Hsub host s target Hempty. apply Hiff in Hsub.
  destruct Hsub as (_ & _ & _ & Hiso).
  rewrite getBalanceAtDate_fold.
  - simpl. rewrite Hempty. reflexivity.
  - simpl. apply (toISOString_nonempty day iso Hiso).
Qed.


(* ===================================================================== *)
(** * Further properties of the charts screen *)
(* ===================================================================== *)

(** ** Buckets *)

Lemma monthlyStep_balanced (host : Host) (acc : gmap string Charts.MonthBucket)
    (t : Transaction) :
  (forall k b, acc !! k = Some b -> balanced b) ->
  forall k b, Charts.monthlyStep host acc t !! k = Some b -> balanced b.
Proof.
  intros Hacc k b. unfold Charts.monthlyStep.
  destruct (decide (Charts.monthKey host (newDate host (date t)) = k)) as [<-|Hne].
  - rewrite lookup_insert_eq. intros H. injection H as <-. reflexivity.
  - rewrite lookup_insert_ne by exact Hne. apply Hacc.
Qed.

Lemma monthlyStep_keys (host : Host) (acc : gmap string Charts.MonthBucket)
    (t : Transaction) (k : string) :
  is_Some (Charts.monthlyStep host acc t !! k)
  <-> is_Some (acc !! k) \/ keyOf host t = k.
Proof.
  unfold Charts.monthlyStep, keyOf.
  destruct (decide (Charts.monthKey host (newDate host (date t)) = k)) as [<-|Hne].
  - rewrite lookup_insert_eq. split; [intros _; right; reflexivity | eauto].
  - rewrite lookup_insert_ne by exact Hne.
    split; [auto | intros [H|H]; [exact H | contradiction]].
Qed.

Lemma fold_monthlyStep_balanced (host : Host) (l : list Transaction) :
  forall acc : gmap string Charts.MonthBucket,
    (forall k b, acc !! k = Some b -> balanced b) ->
    forall k b, fold_left (Charts.monthlyStep host) l acc !! k = Some b ->
                balanced b.
Proof.
  induction l as [|t l IH]; intros acc Hacc; simpl.
  - exact Hacc.
  - apply IH. apply monthlyStep_balanced. exact Hacc.
Qed.

Lemma fold_monthlyStep_keys (host : Host) (l : list Transaction) (k : string) :
  forall acc : gmap string Charts.MonthBucket,
    is_Some (fold_left (Charts.monthlyStep host) l acc !! k)
    <-> is_Some (acc !! k) \/ exists t, In t l /\ keyOf host t = k.
Proof.
  induction l as [|t l IH]; intros acc; simpl.
  - split; [auto | intros [H|(t & [] & _)]; exact H].
  - rewrite IH, monthlyStep_keys. split.
    + intros [[H|H]|(t' & Hin & Hk)].
      * left. exact H.
      * right. exists t. split; [left; reflexivity | exact H].
      * right. exists t'. split; [right; exact Hin | exact Hk].
    + intros [H|(t' & [<-|Hin] & Hk)].
      * left. left. exact H.
      * left. right. exact Hk.
      * right. exists t'. split; assumption.
Qed.

(** X15: in [monthlyData] a month has a bucket exactly when a transaction
    dated on or after the cutoff falls in it, and in every bucket the
    balance is the income less the expense. *)
Theorem monthly_buckets (host : Host) (cutoff : Date) (txs : list Transaction)
    (k : string) :
  (is_Some (Charts.monthlyData host cutoff txs !! k)
   <-> exists t, In t txs
                 /\ date_ge (newDate host (date t)) cutoff = true
                 /\ keyOf host t = k)
  /\ (forall b, Charts.monthlyData host cutoff txs !! k = Some b -> balanced b).
Proof.
  unfold Charts.monthlyData. split.
  - rewrite fold_monthlyStep_keys. unfold Charts.filteredTransactions. split.
    + intros [H|(t & Hin & Hk)].
      * rewrite lookup_empty in H. destruct H as [? H]. discriminate H.
      * apply filter_In in Hin. exists t. tauto.
    + intros (t & Hin & Hge & Hk). right. exists t.
      split; [apply filter_In; split; assumption | exact Hk].
  - apply fold_monthlyStep_balanced. intros k' b' H.
    rewrite lookup_empty in H. discriminate H.
Qed.

(** ** Month keys *)

Lemma numberToString_inj (y y' : Z) :
  numberToString y = numberToString y' -> y = y'.
Proof.
  unfold numberToString. intros H. apply DecimalZ.to_int_inj.
  assert (Hnn : forall z, Z.to_int z <> Decimal.Pos Decimal.Nil
                          /\ Z.to_int z <> Decimal.Neg Decimal.Nil).
  { intros [|p|p]; simpl; split; try discriminate; intros E; injection E as E;
      exact (DecimalPos.Unsigned.to_uint_nonnil p E). }
  assert (Hs : Some (Z.to_int y) = Some (Z.to_int y')).
  { rewrite <- (NilZero.isi (Z.to_int y)) by apply Hnn.
    rewrite <- (NilZero.isi (Z.to_int y')) by apply Hnn.
    rewrite H. reflexivity. }
  injection Hs as Hs. exact Hs.
Qed.

Lemma month_part (m m' : Z) :
  0 <= m <= 11 -> 0 <= m' <= 11 ->
  String.length (padStart 2 "0" (numberToString (m + 1))) = 2%nat
  /\ (padStart 2 "0" (numberToString (m + 1))
      = padStart 2 "0" (numberToString (m' + 1)) -> m = m').
Proof.
  intros Hm Hm'. split.
  - each_month m Hm; reflexivity.
  - each_month m Hm; each_month m' Hm'; intros H; try reflexivity;
      vm_compute in H; discriminate H.
Qed.

Lemma monthKey_valid (host : Host) (t : Z) :
  Charts.monthKey host (Some t)
  = (numberToString (YearFromTime (LocalTime host t))
     ++ "-" ++ padStart 2 "0"
                 (numberToString (MonthFromTime (LocalTime host t) + 1)))%string.
Proof. reflexivity. Qed.

(** X16: two valid dates have the same month key exactly when they are in
    the same calendar month (so a bucket never mixes months), and the key
    of a valid date is never the [NaN-NaN] that an Invalid Date would
    give. *)
Theorem monthKey_same_month (host : Host) (a b : Z) :
  (Charts.monthKey host (Some a) = Charts.monthKey host (Some b)
   <-> isSameMonth host (Some a) (Some b) = true)
  /\ Charts.monthKey host (Some a) <> Charts.monthKey host InvalidDate
  /\ Charts.monthKey host InvalidDate = "NaN-NaN"%string.
Proof.
  pose proof (MonthFromTime_range (LocalTime host a)) as Ha.
  pose proof (MonthFromTime_range (LocalTime host b)) as Hb.
  destruct (month_part _ _ Ha Hb) as [Hla Hinj].
  destruct (month_part _ _ Hb Ha) as [Hlb _].
  split; [|split; [|reflexivity]].
  - rewrite !monthKey_valid. unfold isSameMonth. simpl.
    rewrite andb_true_iff, !bool_decide_eq_true. split.
    + intros Heq.
      assert (Hlen : String.length (numberToString (YearFromTime (LocalTime host a)))
                     = String.length (numberToString (YearFromTime (LocalTime host b)))).
      { apply (f_equal String.length) in Heq.
        rewrite !string_length_app, Hla, Hlb in Heq. simpl in Heq. lia. }
      destruct (string_app_inv _ _ _ _ Hlen Heq) as [Hy Hrest].
      apply numberToString_inj in Hy.
      rewrite !string_cons_app, !string_nil_app in Hrest.
      injection Hrest as Hrest. apply Hinj in Hrest.
      rewrite Hy, Hrest. repeat split; discriminate.
    + intros [[Hy _] [Hm _]]. injection Hy as ->. injection Hm as ->.
      reflexivity.
  - rewrite monthKey_valid.
    change (Charts.monthKey host InvalidDate) with ("NaN" ++ "-" ++ "NaN")%string.
    intros Heq.
    assert (Hlen : String.length (numberToString (YearFromTime (LocalTime host a)))
                   = String.length "NaN-"%string).
    { apply (f_equal String.length) in Heq.
      rewrite !string_length_app, Hla in Heq. simpl in Heq. simpl. lia. }
    change ("NaN" ++ "-" ++ "NaN")%string with ("NaN-" ++ "NaN")%string in Heq.
    destruct (string_app_inv _ _ _ _ Hlen Heq) as [_ Hrest].
    rewrite string_cons_app in Hrest. discriminate Hrest.
Qed.

(** ** The time range *)

Lemma monthStart_eq (i : Z) :
  monthStart i
  = DayFromYear (i / 12)
    + DaysBeforeMonth (if DaysInYear (i / 12) =? 366 then 1 else 0) (i mod 12).
Proof.
  unfold monthStart, MakeDayCarry, MakeDay. cbv zeta.
  rewrite Z.add_0_l. lia.
Qed.

(** A month has 28 to 31 days. *)
Lemma monthStart_step (i : Z) : 28 <= monthStart (i + 1) - monthStart i <= 31.
Proof.
  rewrite !monthStart_eq.
  assert (Hm : 0 <= i mod 12 <= 11) by (pose proof (Z.mod_pos_bound i 12); lia).
  destruct (Z.eq_dec (i mod 12) 11) as [E11|E11].
  - assert (Hq : (i + 1) / 12 = i / 12 + 1) by (Z.div_mod_to_equations; lia).
    assert (Hr : (i + 1) mod 12 = 0) by (Z.div_mod_to_equations; lia).
    rewrite Hq, Hr, E11, DayFromYear_succ. cbn [DaysBeforeMonth].
    destruct (DaysInYear_cases (i / 12)) as [E | E]; rewrite E; simpl; lia.
  - assert (Hq : (i + 1) / 12 = i / 12) by (Z.div_mod_to_equations; lia).
    assert (Hr : (i + 1) mod 12 = i mod 12 + 1) by (Z.div_mod_to_equations; lia).
    rewrite Hq, Hr. set (m := i mod 12) in *. clearbody m.
    destruct (DaysInYear (i / 12) =? 366); each_month m Hm; simpl; lia.
Qed.

Lemma monthStart_span (k : Z) :
  0 <= k ->
  forall i : Z, 28 * k <= monthStart i - monthStart (i - k) <= 31 * k.
Proof.
  intros Hk. pattern k. apply natlike_ind; [| |exact Hk].
  - intros i. rewrite Z.sub_0_r. lia.
  - intros n Hn IH i. pose proof (IH (i - 1)) as H1.
    pose proof (monthStart_step (i - 1)) as H2.
    replace (i - 1 + 1) with i in H2 by lia.
    replace (i - Z.succ n) with (i - 1 - n) by lia. lia.
Qed.

Lemma MakeDayCarry_monthStart (y m d : Z) :
  MakeDayCarry y m d = monthStart (12 * y + m) + d - 1.
Proof.
  rewrite monthStart_eq. unfold MakeDayCarry, MakeDay. cbv zeta.
  assert (Hq : (12 * y + m) / 12 = y + m / 12) by (Z.div_mod_to_equations; lia).
  assert (Hr : (12 * y + m) mod 12 = m mod 12) by (Z.div_mod_to_equations; lia).
  rewrite Hq, Hr. lia.
Qed.

Lemma Day_monthStart (t : Z) :
  Day t = monthStart (12 * YearFromTime t + MonthFromTime t) + DateFromTime t - 1.
Proof.
  rewrite <- MakeDayCarry_monthStart. unfold MakeDayCarry.
  pose proof (MonthFromTime_range t) as Hm.
  rewrite Z.div_small, Z.mod_small, Z.add_0_r by lia.
  symmetry. apply MakeDay_fields.
Qed.

(** ** Counting periods when the offset changes *)

(** A month is as long as the distance to the start of the next one. *)
Lemma DaysInMonth_monthStart (y m : Z) :
  0 <= m <= 11 ->
  DaysInMonth y m = monthStart (12 * y + m + 1) - monthStart (12 * y + m).
Proof.
  intros Hm. rewrite !monthStart_eq. unfold DaysInMonth. cbv zeta.
  assert (Hq : (12 * y + m) / 12 = y) by (Z.div_mod_to_equations; lia).
  assert (Hr : (12 * y + m) mod 12 = m) by (Z.div_mod_to_equations; lia).
  rewrite Hq, Hr.
  destruct (Z.eq_dec m 11) as [->|E11].
  - assert (Hq' : (12 * y + 11 + 1) / 12 = y + 1) by (Z.div_mod_to_equations; lia).
    assert (Hr' : (12 * y + 11 + 1) mod 12 = 0) by (Z.div_mod_to_equations; lia).
    rewrite Hq', Hr', DayFromYear_succ. cbn [DaysBeforeMonth Z.eqb Pos.eqb].
    destruct (DaysInYear_cases y) as [E | E]; rewrite E; simpl; lia.
  - assert (Hq' : (12 * y + m + 1) / 12 = y) by (Z.div_mod_to_equations; lia).
    assert (Hr' : (12 * y + m + 1) mod 12 = m + 1) by (Z.div_mod_to_equations; lia).
    rewrite Hq', Hr'.
    destruct (DaysInYear y =? 366); each_month m Hm; simpl; lia.
Qed.

Lemma monthStart_mono (i j : Z) : i <= j -> monthStart i <= monthStart j.
Proof.
  intros Hij. pose proof (monthStart_span (j - i) ltac:(lia) j) as H.
  replace (j - (j - i)) with i in H by lia. lia.
Qed.

(** Year * 12 + month grows by at most one in 28 days. *)
Lemma month_index_28 (t1 t2 : Z) :
  t1 <= t2 + 28 * msPerDay ->
  12 * YearFromTime t1 + MonthFromTime t1
  <= 12 * YearFromTime t2 + MonthFromTime t2 + 1.
Proof.
  intros Hle.
  set (i1 := 12 * YearFromTime t1 + MonthFromTime t1).
  set (i2 := 12 * YearFromTime t2 + MonthFromTime t2).
  destruct (Z_le_gt_dec i1 (i2 + 1)) as [H|H]; [exact H|exfalso].
  pose proof (Day_monthStart t1) as D1. fold i1 in D1.
  pose proof (Day_monthStart t2) as D2. fold i2 in D2.
  pose proof (DateFromTime_range t1) as R1.
  pose proof (DateFromTime_range t2) as R2.
  pose proof (MonthFromTime_range t2) as M2.
  rewrite (DaysInMonth_monthStart _ _ M2) in R2. fold i2 in R2.
  pose proof (monthStart_mono (i2 + 2) i1 ltac:(lia)) as Hm.
  pose proof (monthStart_step (i2 + 1)) as Hs.
  replace (i2 + 1 + 1) with (i2 + 2) in Hs by lia.
  assert (HD : Day t1 <= Day t2 + 28).
  { pose proof (Day_mono t1 (t2 + 28 * msPerDay) Hle) as HD.
    unfold Day, msPerDay in *. Z.div_mod_to_equations. lia. }
  lia.
Qed.

(** X7: for a transaction dated on or before the target the numbers of
    elapsed months and of elapsed years are integers, the months being the
    years times 12 up to 11 either way.  They are not negative (the
    transaction is counted at least once) when the zone's offset has not
    dropped by more than the time between the two dates, that is, when the
    transaction's local time is not after the target's; and they are never
    below -1 unless the offset drops by more than 28 days. *)
Theorem periods_nonnegative (host : Host) (ts te : Z) :
  ts <= te ->
  exists months years : Z,
    getMonthsBetween host (Some ts) (Some te) = Some months
    /\ getYearsBetween host (Some ts) (Some te) = Some years
    /\ years * 12 - 11 <= months <= years * 12 + 11
    /\ (LocalTZA host ts true - LocalTZA host te true <= te - ts ->
        0 <= months /\ 0 <= years)
    /\ (LocalTZA host ts true - LocalTZA host te true <= 28 * msPerDay ->
        -1 <= months /\ -1 <= years).
Proof.
  intros Hle. simpl.
  eexists. eexists. split; [reflexivity|]. split; [reflexivity|].
  pose proof (MonthFromTime_range (LocalTime host ts)) as Ms.
  pose proof (MonthFromTime_range (LocalTime host te)) as Me.
  split; [lia|]. split; intros Hoff.
  - pose proof (month_index_mono (LocalTime host ts) (LocalTime host te)
                  ltac:(unfold LocalTime; lia)) as Hidx.
    lia.
  - pose proof (month_index_28 (LocalTime host ts) (LocalTime host te)
                  ltac:(unfold LocalTime; lia)) as Hidx.
    lia.
Qed.

(** At a fixed offset two instants ten minutes apart on 1 November 2009 are
    0 months apart; in St. John's, where the clocks went back between them,
    the later one is in October and the months are -1. *)
Lemma periods_nonnegative_witness :
  parseISO "2009-11-01T02:30:30.000Z" = Some 1257042630000
  /\ parseISO "2009-11-01T02:40:00.000Z" = Some 1257043200000
  /\ 1257042630000 <= 1257043200000
  /\ getMonthsBetween (isoHost 0) (Some 1257042630000) (Some 1257043200000)
     = Some 0
  /\ getMonthsBetween stJohns2009 (Some 1257042630000) (Some 1257043200000)
     = Some (-1)
  /\ (exists months years : Z,
        getMonthsBetween (isoHost 0) (Some 1257042630000) (Some 1257043200000)
        = Some months
        /\ getYearsBetween (isoHost 0) (Some 1257042630000) (Some 1257043200000)
           = Some years
        /\ 0 <= months /\ 0 <= years)
  /\ (exists months years : Z,
        getMonthsBetween stJohns2009 (Some 1257042630000) (Some 1257043200000)
        = Some months
        /\ getYearsBetween stJohns2009 (Some 1257042630000) (Some 1257043200000)
           = Some years
        /\ -1 <= months /\ -1 <= years).
Proof.
  split; [reflexivity|]. split; [reflexivity|]. split; [lia|].
  split; [reflexivity|]. split; [reflexivity|]. split.
  - destruct (periods_nonnegative (isoHost 0) 1257042630000 1257043200000
                ltac:(lia)) as (months & years & Hm & Hy & _ & H & _).
    exists months, years. split; [exact Hm|]. split; [exact Hy|].
    apply H. simpl. lia.
  - destruct (periods_nonnegative stJohns2009 1257042630000 1257043200000
                ltac:(lia)) as (months & years & Hm & Hy & _ & _ & H).
    exists months, years. split; [exact Hm|]. split; [exact Hy|].
    apply H. vm_compute. discriminate.
Defined.

(** ** The cutoff of a range *)

(** [setMonth] moves the local time back by whole days, the months it
    skips, and reads the result as a local time. *)
Lemma setMonth_back (host : Host) (now k : Z) :
  0 <= k ->
  exists days : Z,
    setMonth host (Some now)
      (jsint_sub (getMonth host (Some now)) (Some k))
    = TimeClip (UTC host (LocalTime host now - days * msPerDay))
    /\ 28 * k <= days <= 31 * k.
Proof.
  intros Hk. unfold setMonth, getMonth, jsint_sub.
  set (lt := LocalTime host now). cbv zeta.
  exists (monthStart (12 * YearFromTime lt + MonthFromTime lt)
          - monthStart (12 * YearFromTime lt + MonthFromTime lt - k)).
  pose proof (monthStart_span k Hk (12 * YearFromTime lt + MonthFromTime lt)) as Hspan.
  split; [|exact Hspan].
  rewrite MakeDayCarry_monthStart.
  replace (12 * YearFromTime lt + (MonthFromTime lt - k))
    with (12 * YearFromTime lt + MonthFromTime lt - k) by lia.
  assert (Hlt : lt = Day lt * msPerDay + TimeWithinDay lt).
  { unfold Day, TimeWithinDay, msPerDay. Z.div_mod_to_equations. lia. }
  pose proof (Day_monthStart lt) as HD.
  f_equal. f_equal. lia.
Qed.

Lemma rangeInMonths_pos (r : Charts.TimeRange) : 3 <= Charts.rangeInMonths r <= 999.
Proof. destruct r; simpl; lia. Qed.

(** X17: the cutoff of a time range is the instant whose local time is a
    whole number of days before the local time of [now], between 28 and 31
    days for each month of the range.  Where the zone's offset is the same
    at both ends the cutoff is that many whole days before [now]; otherwise
    it differs from that by the change of offset.  With offsets within a day
    of UTC, a transaction dated [now] or later passes the filter of every
    range, and one older than 31 days per month of the range and two days
    more does not: also under ALL, which is 999 months.  ([now] is a valid
    time value not below -5 * 10^15, so that the cutoff is one too.) *)
Theorem cutoff_bounds (host : Host) (now : Z) (r : Charts.TimeRange) :
  (forall (t : Z) (isUTC : bool), Z.abs (LocalTZA host t isUTC) <= msPerDay) ->
  - 5000000000000000 <= now <= maxTime ->
  exists days : Z,
    Charts.cutoffDate host (Some now) r
    = Some (UTC host (LocalTime host now - days * msPerDay))
    /\ 28 * Charts.rangeInMonths r <= days <= 31 * Charts.rangeInMonths r
    /\ (LocalTZA host (LocalTime host now - days * msPerDay) false
        = LocalTZA host now true ->
        Charts.cutoffDate host (Some now) r = Some (now - days * msPerDay))
    /\ (forall t : Z,
          now <= t ->
          date_ge (Some t) (Charts.cutoffDate host (Some now) r) = true)
    /\ (forall t : Z,
          t < now - (31 * Charts.rangeInMonths r + 2) * msPerDay ->
          date_ge (Some t) (Charts.cutoffDate host (Some now) r) = false).
Proof.
  intros Hoff Hnow. pose proof (rangeInMonths_pos r) as Hr.
  destruct (setMonth_back host now (Charts.rangeInMonths r) ltac:(lia))
    as (days & Hcut & Hdays).
  exists days. unfold Charts.cutoffDate. rewrite Hcut.
  pose proof (Hoff now true) as H1.
  pose proof (Hoff (LocalTime host now - days * msPerDay) false) as H2.
  assert (Hval : UTC host (LocalTime host now - days * msPerDay)
                 = now - days * msPerDay
                   + (LocalTZA host now true
                      - LocalTZA host (LocalTime host now - days * msPerDay) false)).
  { unfold UTC. unfold LocalTime at 1. lia. }
  assert (Hclip : TimeClip (UTC host (LocalTime host now - days * msPerDay))
                  = Some (UTC host (LocalTime host now - days * msPerDay))).
  { unfold TimeClip. rewrite Hval.
    replace (Z.abs _ <=? maxTime) with true; [reflexivity|].
    symmetry. apply Z.leb_le. unfold msPerDay, maxTime in *. lia. }
  rewrite Hclip. split; [reflexivity|]. split; [exact Hdays|].
  split; [intros Hsame; rewrite Hval, Hsame; f_equal; lia|].
  rewrite Hval. unfold msPerDay in *. split; intros t Ht; simpl.
  - apply Z.leb_le. lia.
  - apply Z.leb_gt. lia.
Qed.

(** Six months back from 00:30 on 1 July 2024 in New York is 00:30 on
    1 January, which is 181 days and 23 hours earlier: the offset differs by
    an hour.  At a fixed offset it is 182 days earlier. *)
Lemma cutoff_bounds_witness :
  (forall (t : Z) (isUTC : bool), Z.abs (LocalTZA newYork2024 t isUTC) <= msPerDay)
  /\ - 5000000000000000 <= 1719808200000 <= maxTime
  /\ parseISO "2024-07-01T04:30:00.000Z" = Some 1719808200000
  /\ Charts.cutoffDate (isoHost 0) (Some 1719808200000) Charts.R6M
     = parseISO "2024-01-01T04:30:00.000Z"
  /\ Charts.cutoffDate newYork2024 (Some 1719808200000) Charts.R6M
     = parseISO "2024-01-01T05:30:00.000Z"
  /\ exists days : Z,
       Charts.cutoffDate newYork2024 (Some 1719808200000) Charts.R6M
       = Some (UTC newYork2024 (LocalTime newYork2024 1719808200000
                                - days * msPerDay))
       /\ 28 * Charts.rangeInMonths Charts.R6M <= days
          <= 31 * Charts.rangeInMonths Charts.R6M
       /\ date_ge (Some 1719808200000)
            (Charts.cutoffDate newYork2024 (Some 1719808200000) Charts.R6M)
          = true.
Proof.
  assert (Hoff : forall (t : Z) (isUTC : bool),
             Z.abs (LocalTZA newYork2024 t isUTC) <= msPerDay).
  { intros t isUTC. unfold msPerDay. simpl. destruct (t <? _); lia. }
  assert (H : - 5000000000000000 <= 1719808200000 <= maxTime)
    by (unfold maxTime; lia).
  split; [exact Hoff|]. split; [exact H|]. split; [reflexivity|].
  split; [vm_compute; reflexivity|]. split; [vm_compute; reflexivity|].
  destruct (cutoff_bounds newYork2024 1719808200000 Charts.R6M Hoff H)
    as (days & Hc & Hd & _ & Hpass & _).
  exists days. split; [exact Hc|]. split; [exact Hd|].
  apply Hpass. lia.
Defined.

(** ** Totals *)

Lemma filter_none {A : Type} (f : A -> bool) (l : list A) :
  (forall x, In x l -> f x = false) -> List.filter f l = [].
Proof.
  induction l as [|a l IH]; intros H; simpl; [reflexivity|].
  rewrite (H a) by (left; reflexivity). apply IH.
  intros x Hx. apply H. right. exact Hx.
Qed.

(** X18: when no income passes the time-range filter, the total income is 0
    and the savings rate is 0 whatever the expenses: the division by the
    total income is not carried out, so the rate is never [NaN] or an
    infinity for lack of income. *)
Theorem no_income_no_rate (host : Host) (cutoff : Date) (txs : list Transaction) :
  (forall t, In t txs -> date_ge (newDate host (date t)) cutoff = true ->
             type t = expense) ->
  Charts.totalIncome host cutoff txs = 0%float
  /\ Charts.savingsRate host cutoff txs = 0%float.
Proof.
  intros Hexp.
  assert (Hinc : Charts.totalIncome host cutoff txs = 0%float).
  { unfold Charts.totalIncome. rewrite filter_none; [reflexivity|].
    intros t Ht. unfold Charts.filteredTransactions in Ht.
    apply filter_In in Ht. destruct Ht as [Hin Hge].
    rewrite (Hexp t Hin Hge). reflexivity. }
  split; [exact Hinc|].
  unfold Charts.savingsRate. cbv zeta. rewrite Hinc. reflexivity.
Qed.

Lemma no_income_no_rate_witness :
  (forall t, In t (transactions rentLedger) ->
             date_ge (newDate (isoHost 0) (date t)) (parseISO "2023-01-01") = true ->
             type t = expense)
  /\ Charts.totalExpense (isoHost 0) (parseISO "2023-01-01")
       (transactions rentLedger) = 200%float
  /\ Charts.savingsRate (isoHost 0) (parseISO "2023-01-01")
       (transactions rentLedger) = 0%float.
Proof.
  assert (H : forall t, In t (transactions rentLedger) ->
                date_ge (newDate (isoHost 0) (date t)) (parseISO "2023-01-01") = true ->
                type t = expense).
  { intros t [<-|[]] _. reflexivity. }
  split; [exact H|]. split; [vm_compute; reflexivity|].
  apply (proj2 (no_income_no_rate (isoHost 0) (parseISO "2023-01-01")
                  (transactions rentLedger) H)).
Defined.

(* ===================================================================== *)
(** * Further properties of the list, the export and the storage *)
(* ===================================================================== *)

(** ** The transaction list *)

Lemma sortInsert_perm {A : Type} (cmp : A -> A -> jsint) (x : A) (l : list A) :
  Permutation (sortInsert cmp x l) (x :: l).
Proof.
  induction l as [|y l IH]; simpl.
  - reflexivity.
  - destruct (0 <? SortCompare (cmp x y)).
    + rewrite IH. apply perm_swap.
    + reflexivity.
Qed.

Lemma sort_perm {A : Type} (cmp : A -> A -> jsint) (l : list A) :
  Permutation (sort cmp l) l.
Proof.
  induction l as [|x l IH]; simpl.
  - reflexivity.
  - rewrite sortInsert_perm, IH. reflexivity.
Qed.

Lemma byDateDescending_valid (host : Host) (a b : Transaction) (ta tb : Z) :
  newDate host (date a) = Some ta ->
  newDate host (date b) = Some tb ->
  SortCompare (TransactionList.byDateDescending host a b) = tb - ta
  /\ (newerFirst host a b <-> tb <= ta).
Proof.
  intros Ha Hb. unfold TransactionList.byDateDescending, newerFirst, getTime.
  rewrite Ha, Hb. simpl. split; [reflexivity | apply Z.leb_le].
Qed.

Lemma dated_Some (host : Host) (t : Transaction) :
  dated host t -> exists z, newDate host (date t) = Some z.
Proof.
  unfold dated, InvalidDate. destruct (newDate host (date t)) as [z|].
  - intros _. exists z. reflexivity.
  - intros H. contradiction.
Qed.

Lemma sortInsert_sorted (host : Host) (x : Transaction) (l : list Transaction) :
  dated host x -> Forall (dated host) l ->
  StronglySorted (newerFirst host) l ->
  StronglySorted (newerFirst host)
    (sortInsert (TransactionList.byDateDescending host) x l).
Proof.
  intros Hx Hl Hs. destruct (dated_Some host x Hx) as [tx Htx].
  induction Hs as [|y l Hsl IH Hy]; simpl.
  - repeat constructor.
  - apply Forall_cons_iff in Hl. destruct Hl as [Hdy Hdl].
    destruct (dated_Some host y Hdy) as [ty Hty].
    destruct (byDateDescending_valid host x y tx ty Htx Hty) as [Hc Hxy].
    rewrite Hc. destruct (Z.ltb_spec 0 (ty - tx)) as [Hlt|Hge].
    + constructor; [apply IH; exact Hdl|].
      rewrite sortInsert_perm. constructor; [|exact Hy].
      unfold newerFirst. rewrite Hty, Htx. simpl. apply Z.leb_le. lia.
    + assert (Hxy' : newerFirst host x y) by (apply Hxy; lia).
      constructor; [constructor; assumption|].
      constructor; [exact Hxy'|].
      apply Forall_forall. intros z Hz.
      pose proof (proj1 (Forall_forall _ _) Hy z Hz) as Hyz.
      pose proof (proj1 (Forall_forall _ _) Hdl z Hz) as Hdz.
      destruct (dated_Some host z Hdz) as [tz Htz].
      unfold newerFirst in *. rewrite Htx, Hty, Htz in *. simpl in *.
      apply Z.leb_le. apply Z.leb_le in Hyz. apply Z.leb_le in Hxy'. lia.
Qed.

(** X19: the list shows every transaction exactly once; when all dates are
    valid it shows them newest first, and a list that is already in that
    order is shown as it is (transactions of the same instant keep their
    order). *)
Theorem list_newest_first (host : Host) (txs : list Transaction) :
  Permutation (TransactionList.sortedTransactions host txs) txs
  /\ (Forall (dated host) txs ->
      StronglySorted (newerFirst host)
        (TransactionList.sortedTransactions host txs))
  /\ (Forall (dated host) txs ->
      StronglySorted (newerFirst host) txs ->
      TransactionList.sortedTransactions host txs = txs).
Proof.
  unfold TransactionList.sortedTransactions. split; [apply sort_perm|]. split.
  - induction txs as [|x l IH]; intros Hd; simpl.
    + constructor.
    + apply Forall_cons_iff in Hd. destruct Hd as [Hx Hl].
      apply sortInsert_sorted; [exact Hx | | apply IH; exact Hl].
      rewrite sort_perm. exact Hl.
  - induction txs as [|x l IH]; intros Hd Hs; simpl; [reflexivity|].
    apply Forall_cons_iff in Hd. destruct Hd as [Hx Hl].
    apply StronglySorted_inv in Hs. destruct Hs as [Hsl Hxl].
    rewrite (IH Hl Hsl). destruct l as [|y l']; [reflexivity|]. simpl.
    apply Forall_cons_iff in Hxl. destruct Hxl as [Hxy _].
    apply Forall_cons_iff in Hl. destruct Hl as [Hy _].
    destruct (dated_Some host x Hx) as [tx Htx].
    destruct (dated_Some host y Hy) as [ty Hty].
    destruct (byDateDescending_valid host x y tx ty Htx Hty) as [Hc Hiff].
    rewrite Hc. apply Hiff in Hxy.
    destruct (Z.ltb_spec 0 (ty - tx)); [lia | reflexivity].
Qed.

Example list_newest_first_scenario :
  TransactionList.sortedTransactions (isoHost 0) [rentTx; earlyTx; salaryTx]
  = [salaryTx; rentTx; earlyTx].
Proof. vm_compute. reflexivity. Qed.

(** ** The export *)

Lemma exportTransactions_from_spec (host : Host) (clock : nat -> Z)
    (txs : list Transaction) :
  forall (i : nat) (es : list Settings.ExportedTransaction),
    Settings.exportTransactions_from host clock i txs = Some es ->
    Forall2 (exportedAs host) txs es.
Proof.
  induction txs as [|t l IH]; intros i es; simpl.
  - intros H. injection H as <-. constructor.
  - unfold Settings.exportTransaction.
    destruct (toISOString (newDate host (date t))) as [iso|] eqn:Hiso;
      [|discriminate].
    simpl.
    destruct (Settings.exportTransactions_from host clock (S i) l) as [es'|] eqn:Hes;
      [|discriminate].
    simpl. intros H. injection H as <-.
    constructor; [|apply (IH (S i)); exact Hes].
    repeat split. exact Hiso.
Qed.

Lemma exportTransactions_from_some (host : Host) (clock : nat -> Z)
    (txs : list Transaction) :
  forall i : nat,
    is_Some (Settings.exportTransactions_from host clock i txs)
    <-> Forall (dated host) txs.
Proof.
  induction txs as [|t l IH]; intros i; simpl.
  - split; [constructor | eauto].
  - rewrite Forall_cons_iff, <- (IH (S i)). unfold Settings.exportTransaction, dated.
    destruct (newDate host (date t)) as [z|]; simpl.
    + destruct (Settings.exportTransactions_from host clock (S i) l); simpl.
      * split; [intros _; split; [discriminate | eauto] | eauto].
      * split; [intros [? H]; discriminate H | intros [_ [? H]]; discriminate H].
    + split; [intros [? H]; discriminate H | intros [H _]; contradiction].
Qed.

Lemma applyTransaction_exported (tz : Z) (target : Date) (b : float)
    (t : Transaction) (e : Settings.ExportedTransaction) :
  commonEra (isoHost tz) t ->
  exportedAs (isoHost tz) t e ->
  applyTransaction (isoHost tz) target b (Settings.exported e)
  = applyTransaction (isoHost tz) target b t.
Proof.
  intros (z & Hz & Hy) (_ & Hty & Ham & _ & Hre & Hiso).
  assert (Hdate : newDate (isoHost tz) (date (Settings.exported e))
                  = newDate (isoHost tz) (date t)).
  { rewrite Hz in *. simpl. apply parseISO_toISOString; assumption. }
  unfold applyTransaction, calculateRecurringAmount, signedAmount.
  rewrite Hdate, Hty, Ham, Hre. reflexivity.
Qed.

Lemma fold_exported (tz : Z) (target : Date) (txs : list Transaction)
    (es : list Settings.ExportedTransaction) :
  Forall2 (exportedAs (isoHost tz)) txs es ->
  Forall (commonEra (isoHost tz)) txs ->
  forall b : float,
    fold_left (applyTransaction (isoHost tz) target) (map Settings.exported es) b
    = fold_left (applyTransaction (isoHost tz) target) txs b.
Proof.
  induction 1 as [|t e l es' Hte _ IH]; intros Hera b.
  - reflexivity.
  - apply Forall_cons_iff in Hera. destruct Hera as [Ht Hl].
    cbn [map fold_left].
    rewrite (applyTransaction_exported tz target b t e Ht Hte).
    apply IH. exact Hl.
Qed.

(** X20: the export builds its data exactly when every transaction has a
    valid date (one Invalid Date makes [toISOString] throw and the export
    fail before anything is written).  The data keeps every transaction, in
    order, with its id, type, amount, description and recurrence, and
    rewrites the date with [toISOString]; for dates in the years 0 to 9999
    the exported transactions project to the same balance as the
    originals. *)
Theorem export_keeps_ledger (tz : Z) (clock : nat -> Z) (s : FinanceState) :
  (is_Some (Settings.exportData (isoHost tz) clock (transactions s))
   <-> Forall (dated (isoHost tz)) (transactions s))
  /\ (forall data : Settings.ExportData,
        Settings.exportData (isoHost tz) clock (transactions s) = Some data ->
        Forall2 (exportedAs (isoHost tz)) (transactions s)
                (Settings.exportTransactions data)
        /\ (Forall (commonEra (isoHost tz)) (transactions s) ->
            forall target : Date,
              getBalanceAtDate (isoHost tz)
                {| initialBalance := initialBalance s;
                   initialDate := initialDate s;
                   transactions :=
                     map Settings.exported (Settings.exportTransactions data);
                   targetDate := targetDate s |} target
              = getBalanceAtDate (isoHost tz) s target)).
Proof.
  assert (Hstamp : forall z : Z, exists iso, toISOString (Some z) = Some iso).
  { intros z. unfold toISOString. eexists. reflexivity. }
  destruct (Hstamp (clock (length (transactions s)))) as [stamp Hst].
  split.
  - rewrite <- (exportTransactions_from_some (isoHost tz) clock (transactions s) 0).
    unfold Settings.exportData.
    destruct (Settings.exportTransactions_from (isoHost tz) clock 0 (transactions s))
      as [es|].
    + rewrite bind_Some, Hst, bind_Some. split; eauto.
    + split; intros [? H]; discriminate H.
  - intros data Hdata. unfold Settings.exportData in Hdata.
    destruct (Settings.exportTransactions_from (isoHost tz) clock 0 (transactions s))
      as [es|] eqn:Hes; [|discriminate].
    rewrite bind_Some, Hst, bind_Some in Hdata.
    injection Hdata as <-. cbn [Settings.exportTransactions].
    pose proof (exportTransactions_from_spec _ _ _ _ _ Hes) as Hall.
    split; [exact Hall|].
    intros Hera target. unfold getBalanceAtDate.
    cbn [initialDate initialBalance transactions].
    destruct (negb (truthy (initialDate s))); [reflexivity|]. cbv zeta.
    apply fold_exported; assumption.
Qed.

(** ** The storage *)

(** X21: a mutation stores the whole ledger as the component that made it
    sees it.  Two components that loaded the same ledger do not see each
    other's changes: when the first adds a transaction and the second then
    sets the initial balance, what is stored afterwards is the second one's
    ledger, without the added transaction, and that is what a component
    mounted later loads. *)
Theorem stale_component_overwrites (stringify : FinanceState -> string)
    (parse : string -> option FinanceState) (storage : gmap string string)
    (s fresh : FinanceState) (draft : TransactionDraft) (rnd : string) (now : Z)
    (b : float) (d : string) :
  let first :=
    Persistence.mutate stringify (fun st => addTransaction st draft rnd now)
      true s storage in
  let second :=
    Persistence.mutate stringify (fun st => setInitialBalance st b d)
      true s (snd first) in
  snd first !! Persistence.STORAGE_KEY
  = Some (stringify (addTransaction s draft rnd now))
  /\ snd second !! Persistence.STORAGE_KEY
     = Some (stringify (setInitialBalance s b d))
  /\ transactions (fst second) = transactions s
  /\ (stringify (setInitialBalance s b d) <> EmptyString ->
      parse (stringify (setInitialBalance s b d))
      = Some (setInitialBalance s b d) ->
      Persistence.loadData parse (snd second) fresh = setInitialBalance s b d).
Proof.
  cbv zeta. unfold Persistence.mutate, Persistence.saveData. cbn [fst snd].
  split; [apply lookup_insert_eq|]. split; [apply lookup_insert_eq|].
  split; [reflexivity|].
  intros Hne Hparse. unfold Persistence.loadData.
  rewrite lookup_insert_eq.
  apply truthy_nonempty in Hne. rewrite Hne, Hparse. reflexivity.
Qed.

Example stale_component_overwrites_example :
  stringify_example (setInitialBalance scenario 1000 "2024-01-01") <> EmptyString
  /\ parse_example (stringify_example (setInitialBalance scenario 1000 "2024-01-01"))
     = Some (setInitialBalance scenario 1000 "2024-01-01").
Proof. split; [discriminate | reflexivity]. Qed.

(** X22: [loadData] leaves the state as it is when nothing is stored, when
    the stored item is the empty string and when it does not parse; a save
    that fails leaves the storage as it was although the component's state
    has changed; and what one component saved is what [loadData] gives
    another, when it parses back. *)
Theorem storage_edges (stringify : FinanceState -> string)
    (parse : string -> option FinanceState) (storage : gmap string string)
    (state other : FinanceState) (change : FinanceState -> FinanceState)
    (data : string) :
  (storage !! Persistence.STORAGE_KEY = None ->
   Persistence.loadData parse storage state = state)
  /\ Persistence.loadData parse
       (<[Persistence.STORAGE_KEY := EmptyString]> storage) state = state
  /\ (parse data = None ->
      Persistence.loadData parse
        (<[Persistence.STORAGE_KEY := data]> storage) state = state)
  /\ Persistence.mutate stringify change false state storage
     = (change state, storage)
  /\ (stringify (change state) <> EmptyString ->
      parse (stringify (change state)) = Some (change state) ->
      Persistence.loadData parse
        (snd (Persistence.mutate stringify change true state storage)) other
      = change state).
Proof.
  unfold Persistence.loadData, Persistence.mutate, Persistence.saveData.
  cbn [fst snd]. rewrite !lookup_insert_eq.
  split; [intros ->; reflexivity|]. split; [reflexivity|]. split.
  - intros Hbad. rewrite Hbad. destruct (truthy (Some data)); reflexivity.
  - split; [reflexivity|]. intros Hne Hparse.
    apply truthy_nonempty in Hne. rewrite Hne, Hparse. reflexivity.
Qed.

(** ** The settings screen *)

(** X23: the settings screen's "clear all data" never clears anything: it
    calls [clearTransactions], a name the hook does not return (its reset
    is [clearAllData]), so the call throws, the ledger of the screen stays
    as it is and the alert is the failure one. *)
Theorem settings_clear_fails (state : FinanceState) :
  Settings.handleClearData state = (state, "Error"%string)
  /\ Persistence.useFinance_returns !! "clearTransactions"%string = None
  /\ Persistence.useFinance_returns !! "clearAllData"%string
     = Some (Persistence.Reset clearAllData)
  /\ clearAllData state = emptyState.
Proof.
  assert (Hnone : Persistence.useFinance_returns !! "clearTransactions"%string = None)
    by reflexivity.
  split; [|split; [exact Hnone|split; reflexivity]].
  unfold Settings.handleClearData. rewrite Hnone. reflexivity.
Qed.
